(** * IDFDUT: the IDF device-under-test driver of tiny-test-fw

    A shallow embedding of [tools/tiny-test-fw/IDF/IDFDUT.py]: the port
    selection of [list_available_ports], the [_tool_method] decorator and
    the four methods it wraps ([start_app], [reset], [erase_partition],
    [dump_flush]), and the probe of a port by [get_chip] and
    [confirm_dut].

    Python strings are [string], lists are [list], the dictionaries
    ([kwargs], the partition table) are [gmap]s keyed by strings.  Code that
    raises or touches the session, the file system or the external flasher
    lives in a state-and-exception monad over an explicit [world]. *)

From Stdlib Require Import ZArith String Ascii List Bool Lia Permutation.
From stdpp Require Import base tactics option list strings gmap.

Local Open Scope Z_scope.

(** ** Python values and exceptions *)

(** Positional arguments handed to [subprocess.check_output] and the values
    found in [kwargs]: text or integers. *)
Inductive pyval : Type :=
| PStr (s : string)
| PInt (n : Z).

(** The exceptions the module raises or lets through. *)
Inductive exn : Type :=
| IDFToolError (msg : string)
| CalledProcessError (returncode : Z) (output : string)
| KeyError (key : pyval)
| ValueError (msg : string)
| TypeError (msg : string)
| UnboundLocalError (name : string)
| OSError (msg : string)
| OverflowError (msg : string)
| MemoryError.

Inductive result (A : Type) : Type :=
| Ok (a : A)
| Raise (e : exn).
Arguments Ok {A} a.
Arguments Raise {A} e.

(** ** Strings: the [str] operations the module uses *)

Module PyStr.

(** [s.startswith(sub)] *)
Fixpoint startswith (s sub : string) {struct sub} : bool :=
  match sub with
  | EmptyString => true
  | String a sub' =>
      match s with
      | EmptyString => false
      | String b s' => Ascii.eqb a b && startswith s' sub'
      end
  end.

(** [sub in s]: [sub] occurs somewhere in [s]. *)
Fixpoint contains (sub s : string) : bool :=
  startswith s sub ||
  match s with
  | EmptyString => false
  | String _ s' => contains sub s'
  end.

(** The scan of [s.replace(old, new)] for a non-empty [old]: left to right,
    non-overlapping; [skip] counts the characters of a matched [old] still
    to be dropped. *)
Fixpoint replace_scan (old new : string) (skip : nat) (s : string) : string :=
  match s with
  | EmptyString => EmptyString
  | String c s' =>
      match skip with
      | S k => replace_scan old new k s'
      | O =>
          if startswith s old
          then new +:+ replace_scan old new (Nat.pred (String.length old)) s'
          else String c (replace_scan old new O s')
      end
  end.

(** With an empty [old], Python puts [new] before every character and at
    the end. *)
Fixpoint replace_empty (new s : string) : string :=
  match s with
  | EmptyString => new
  | String c s' => new +:+ String c (replace_empty new s')
  end.

(** [s.replace(old, new)] *)
Definition replace (old new s : string) : string :=
  match old with
  | EmptyString => replace_empty new s
  | String _ _ => replace_scan old new O s
  end.

(** What [contains] decides: [s] is [pre + sub + post]. *)
Definition occurs_in (sub s : string) : Prop :=
  exists pre post, s = pre +:+ sub +:+ post.

End PyStr.

(** ** Regular expressions: an alternation of literals

    [re.compile(r"AMA|Bluetooth")] has no metacharacter but [|]; the pattern
    is kept as the list of its alternatives and [search] succeeds when one of
    them occurs in the subject. *)
Module Re.

Definition pattern : Type := list string.

(** [pattern.search(s)] as a truth value ([None] is false, a match true). *)
Definition search (p : pattern) (s : string) : bool :=
  existsb (fun alt => PyStr.contains alt s) p.

End Re.

(** ** Lists *)

(** [l.remove(x)]: drops the first occurrence, [ValueError] when there is
    none. *)
Fixpoint list_remove (x : string) (l : list string) : result (list string) :=
  match l with
  | [] => Raise (ValueError "list.remove(x): x not in list")
  | y :: l' =>
      if decide (y = x) then Ok l'
      else match list_remove x l' with
           | Ok r => Ok (y :: r)
           | Raise e => Raise e
           end
  end.

(** [x in l] *)
Definition list_in (x : string) (l : list string) : bool :=
  bool_decide (x ∈ l).

(** Truth value of [os.getenv('ESPPORT')]: [None] and the empty string are
    false. *)
Definition truthy (espport : option string) : bool :=
  match espport with
  | None => false
  | Some EmptyString => false
  | Some (String _ _) => true
  end.

(** ** The world the methods act on *)

(** Python 2 and Python 3 differ where the module depends on it: the name
    bound by [except ... as] and writing text to a binary file. *)
Inductive python : Type := Python2 | Python3.

Inductive event : Type :=
| EvClose                       (* [self.close()] *)
| EvOpen                        (* [self.open()] *)
| EvTool (args : list pyval).   (* [subprocess.check_output(args)] *)

(** The command lines handed to [subprocess.check_output] in a trace,
    oldest first. *)
Fixpoint tool_calls (evs : list event) : list (list pyval) :=
  match evs with
  | [] => []
  | EvTool args :: evs' => args :: tool_calls evs'
  | _ :: evs' => tool_calls evs'
  end.

(** A [tempfile.NamedTemporaryFile]: written bytes wait in [tf_pending]
    until a flush moves them to [tf_disk]. *)
Record tmpfile : Type := TmpFile {
  tf_name : string;
  tf_pending : list Byte.byte;
  tf_disk : list Byte.byte;
  tf_closed : bool
}.

(** What the program asks of its environment and may be refused. *)
Inductive request : Type :=
| ReqOpenPort                             (* [self.open()] *)
| ReqRepeat (n : Z)                       (* the memory of [sequence * n] *)
| ReqConcat (n : nat)                     (* the memory of a list of [n] items *)
| ReqTmpCreate                            (* [tempfile.NamedTemporaryFile()] *)
| ReqTmpWrite (n : nat)                   (* [write] of [n] bytes to it *)
| ReqTmpFlush                             (* its [flush] *)
| ReqFileOpen (path : string)             (* [open(path, "wb")] *)
| ReqFileWrite (path : string) (n : nat). (* [write] of [n] bytes to it *)

Record world : Type := World {
  port_open : bool;                     (* the session holds its serial port *)
  trace : list event;
  tmpfiles : list tmpfile;              (* indexed by handle *)
  files : gmap string (list Byte.byte); (* files written by path *)
  maxsize : Z;                          (* [sys.maxsize] *)
  refuses : request -> option exn       (* the error a request meets, if any *)
}.

Definition set_port (b : bool) (w : world) : world :=
  World b (trace w) (tmpfiles w) (files w) (maxsize w) (refuses w).
Definition log (ev : event) (w : world) : world :=
  World (port_open w) (trace w ++ [ev]) (tmpfiles w) (files w)
    (maxsize w) (refuses w).
Definition set_tmpfiles (fs : list tmpfile) (w : world) : world :=
  World (port_open w) (trace w) fs (files w) (maxsize w) (refuses w).
Definition set_files (fs : gmap string (list Byte.byte)) (w : world) : world :=
  World (port_open w) (trace w) (tmpfiles w) fs (maxsize w) (refuses w).

(** ** State and exceptions *)

Definition M (A : Type) : Type := world -> result A * world.

Definition ret {A} (a : A) : M A := fun w => (Ok a, w).
Definition raise {A} (e : exn) : M A := fun w => (Raise e, w).
Definition bind {A B} (m : M A) (k : A -> M B) : M B :=
  fun w =>
    match m w with
    | (Ok a, w') => k a w'
    | (Raise e, w') => (Raise e, w')
    end.

Declare Scope py_scope.
Delimit Scope py_scope with py.
Notation "x <- m ;; k" := (bind m (fun x => k))
  (at level 100, m at next level, right associativity) : py_scope.
Notation "m ;; k" := (bind m (fun _ => k))
  (at level 100, right associativity) : py_scope.
Local Open Scope py_scope.

(** [try: body finally: fin]: [fin] runs on both exits; an exception of
    [fin] replaces the outcome of [body]. *)
Definition try_finally {A} (body : M A) (fin : M unit) : M A :=
  fun w =>
    match body w with
    | (r, w1) =>
        match fin w1 with
        | (Ok _, w2) => (r, w2)
        | (Raise e, w2) => (Raise e, w2)
        end
    end.

(** A result computed without the world. *)
Definition lift {A} (r : result A) : M A := fun w => (r, w).

(** A request to the environment: its refusal is raised. *)
Definition ask (r : request) : M unit :=
  fun w =>
    match refuses w r with
    | Some e => (Raise e, w)
    | None => (Ok tt, w)
    end.

(** [d[k]] on a dictionary with string keys. *)
Definition getitem {V} (d : gmap string V) (k : string) : M V :=
  match d !! k with
  | Some v => ret v
  | None => raise (KeyError (PStr k))
  end.

(** The read of a local name that may be unbound. *)
Definition load_name {A} (name : string) (v : option A) : M A :=
  match v with
  | Some a => ret a
  | None => raise (UnboundLocalError name)
  end.

(** *** Temporary files *)

Definition with_tmpfile (h : nat) (f : tmpfile -> tmpfile) : M unit :=
  fun w =>
    match tmpfiles w !! h with
    | Some tf =>
        if tf_closed tf
        then (Raise (ValueError "I/O operation on closed file"), w)
        else (Ok tt, set_tmpfiles (<[h := f tf]> (tmpfiles w)) w)
    | None => (Raise (ValueError "I/O operation on closed file"), w)
    end.

Definition tmp_write (h : nat) (data : list Byte.byte) : M unit :=
  ask (ReqTmpWrite (length data)) ;;
  with_tmpfile h (fun tf =>
    TmpFile (tf_name tf) (tf_pending tf ++ data) (tf_disk tf) (tf_closed tf)).

Definition tmp_flush (h : nat) : M unit :=
  ask ReqTmpFlush ;;
  with_tmpfile h (fun tf =>
    TmpFile (tf_name tf) [] (tf_disk tf ++ tf_pending tf) (tf_closed tf)).

(** [close()] may be repeated; the file is deleted with its contents. *)
Definition tmp_close (h : nat) : M unit :=
  fun w =>
    match tmpfiles w !! h with
    | Some tf =>
        (Ok tt, set_tmpfiles (<[h := TmpFile (tf_name tf) [] [] true]> (tmpfiles w)) w)
    | None => (Ok tt, w)
    end.

(** *** Sequences *)

(** A Python 2 [str] is a byte string, a Python 3 [str] is text. *)
Inductive pystring : Type :=
| PyBytes (b : list Byte.byte)
| PyText (s : string).

(** A string of length one. *)
Inductive pychr : Type :=
| ChrByte (b : Byte.byte)
| ChrText (c : ascii).

(** [chr(0xFF)]: the byte 0xFF under Python 2, the character U+00FF under
    Python 3. *)
Definition chr_ff (py : python) : pychr :=
  match py with
  | Python2 => ChrByte Byte.xff
  | Python3 => ChrText "255"
  end.

(** [n] copies of the character [c]. *)
Fixpoint text_of (c : ascii) (n : nat) : string :=
  match n with
  | O => EmptyString
  | S n' => String c (text_of c n')
  end.

(** The counts a sequence can be repeated by: those of a [Py_ssize_t]. *)
Definition index_sized (w : world) (n : Z) : bool :=
  (- maxsize w - 1 <=? n) && (n <=? maxsize w).

(** What [sequence * n] checks before it builds anything: a count that is
    not index-sized is an [OverflowError] (such a count is a [long] under
    Python 2), and the memory may be refused. *)
Definition repeat_check (py : python) (n : Z) : M unit :=
  fun w =>
    if index_sized w n
    then ask (ReqRepeat n) w
    else
      (Raise (OverflowError
                match py with
                | Python2 => "cannot fit 'long' into an index-sized integer"
                | Python3 => "cannot fit 'int' into an index-sized integer"
                end), w).

(** [b * n] for the byte string of the one byte [b]: empty for a count that
    is not positive. *)
Definition byte_times (py : python) (b : Byte.byte) (n : Z)
  : M (list Byte.byte) :=
  repeat_check py n ;;
  ret (replicate (Z.to_nat n) b).

(** [c * n] for a [str] of length one. *)
Definition chr_times (py : python) (c : pychr) (n : Z) : M pystring :=
  repeat_check py n ;;
  ret (match c with
       | ChrByte b => PyBytes (replicate (Z.to_nat n) b)
       | ChrText c => PyText (text_of c (Z.to_nat n))
       end).

(** [a + b] on lists: a new list, whose memory may be refused. *)
Definition list_concat {A} (a b : list A) : M (list A) :=
  ask (ReqConcat (length a + length b)) ;;
  ret (a ++ b).

(** *** Files opened by path *)

(** [open(path, "wb")]: the file is created or truncated. *)
Definition open_wb (path : string) : M string :=
  ask (ReqFileOpen path) ;;
  fun w => (Ok path, set_files (<[path := []]> (files w)) w).

(** [f.write(s)] on a file opened in binary mode: text is refused. *)
Definition file_write (path : string) (s : pystring) : M unit :=
  match s with
  | PyText _ => raise (TypeError "a bytes-like object is required, not 'str'")
  | PyBytes b =>
      ask (ReqFileWrite path (length b)) ;;
      fun w =>
        (Ok tt,
         set_files (<[path := default [] (files w !! path) ++ b]> (files w)) w)
  end.

(** ** The session *)

(** One line of the partition table. *)
Record partition : Type := Partition {
  offset : pyval;
  size : Z
}.

(** What the methods read from [self]: [self.app.esptool],
    [self.app.get_log_folder()], [self.port], [self.download_config] and
    [self.partition_table]. *)
Record idfdut : Type := Session {
  esptool : string;
  log_folder : string;
  port : string;
  download_config : list pyval;
  partition_table : gmap string partition
}.

(** Modelled from the spec: [close] and [open] of the serial session are
    inherited from [DUT.SerialDUT], which is not part of the sources; the
    session releases its held serial connection and reacquires it. The port
    may fail to reopen: the failure is raised and the port stays released. *)
Definition close : M unit := fun w => (Ok tt, log EvClose (set_port false w)).
Definition open : M unit :=
  ask ReqOpenPort ;;
  fun w => (Ok tt, log EvOpen (set_port true w)).

(** The decorator: close port, execute tool method and then reopen port. *)
Definition _tool_method {A} (func : M A) : M A :=
  close ;;
  ret_ <- func ;;
  open ;;
  ret ret_.

(** A call of one of the four decorated methods. *)
Inductive tool_op : Type :=
| OpStartApp (erase_nvs : bool)
| OpReset
| OpErasePartition (partition : string)
| OpDumpFlush (output_file : string) (kwargs : gmap string pyval).

(** ** The class [IDFDUT] *)
Module IDFDUT.

(** *** Port selection *)

(** [/dev/ttyAMA0] is listed on a Raspberry Pi,
    [/dev/tty.Bluetooth-Incoming-Port] on a Mac. *)
Definition INVALID_PORT_PATTERN : Re.pattern := ["AMA"; "Bluetooth"].

(** The class method, as a function of what it reads from its environment:
    [comports] is the device names of [list_ports.comports()], in order;
    [espport] is [os.getenv('ESPPORT')] as text (the [decode('utf8')] of the
    byte-string case is the identity on it); [sys_platform] is
    [sys.platform]. *)
Definition list_available_ports
    (comports : list string) (espport : option string) (sys_platform : string)
  : result (list string) :=
  let ports := comports in
  if negb (truthy espport) then
    Ok (List.filter (fun x => negb (Re.search INVALID_PORT_PATTERN x)) ports)
  else
    let port_hint := default EmptyString espport in
    if list_in port_hint ports then
      match list_remove port_hint ports with
      | Ok ports => Ok (port_hint :: ports)
      | Raise e => Raise e
      end
    else if String.eqb sys_platform "darwin" && PyStr.contains "tty." port_hint then
      let port_hint := PyStr.replace "tty." "cu." port_hint in
      if list_in port_hint ports then
        match list_remove port_hint ports with
        | Ok ports => Ok (port_hint :: ports)
        | Raise e => Raise e
        end
      else Ok ports
    else Ok ports.

(** *** The chip banner: [CHIP_TYPE_PATTERN]

    [re.compile(r"Detecting chip type[.:\s]+(.+)")]: the literal, then one or
    more characters of the class, as many as it can take and giving them back
    one at a time, then group 1, which takes at least one character and stops
    before a newline. Text is a string of characters, one code point below
    256 each. *)
Section ChipTypePattern.

(** The class [\s] of the interpreter's [re]. *)
Variable is_space : ascii -> bool.

Definition chip_banner : string := "Detecting chip type".

(** [[.:\s]] *)
Definition chip_class (c : ascii) : bool :=
  Ascii.eqb c "." || Ascii.eqb c ":" || is_space c.

Definition newline : ascii := "010".

(** How many characters [[.:\s]+] takes at most. *)
Fixpoint class_run (s : string) : nat :=
  match s with
  | EmptyString => O
  | String c s' => if chip_class c then S (class_run s') else O
  end.

(** [s[n:]] *)
Fixpoint drop_chars (n : nat) (s : string) : string :=
  match n, s with
  | S n', String _ s' => drop_chars n' s'
  | _, _ => s
  end.

(** The characters of [s] before its first newline. *)
Fixpoint line (s : string) : string :=
  match s with
  | EmptyString => EmptyString
  | String c s' => if Ascii.eqb c newline then EmptyString else String c (line s')
  end.

(** [(.+)] at [s], where the pattern ends: the rest of the line, which must
    not be empty. *)
Definition group_dot_plus (s : string) : option string :=
  match line s with
  | EmptyString => None
  | String c g => Some (String c g)
  end.

(** [[.:\s]+(.+)] at [s]: the class takes [k] characters, then [k - 1], and
    so on, never none. *)
Fixpoint back_off (k : nat) (s : string) : option string :=
  match k with
  | O => None
  | S k' =>
      match group_dot_plus (drop_chars k s) with
      | Some g => Some g
      | None => back_off k' s
      end
  end.

(** The whole pattern at the start of [s]. *)
Definition match_here (s : string) : option string :=
  if PyStr.startswith s chip_banner then
    let rest := drop_chars (String.length chip_banner) s in
    back_off (class_run rest) rest
  else None.

(** [CHIP_TYPE_PATTERN.search(s)]: group 1 of the leftmost match, if any. *)
Fixpoint CHIP_TYPE_PATTERN_search (s : string) : option string :=
  match match_here s with
  | Some g => Some g
  | None =>
      match s with
      | EmptyString => None
      | String _ s' => CHIP_TYPE_PATTERN_search s'
      end
  end.

End ChipTypePattern.

(** *** The tool methods *)
Section Methods.

(** The interpreter running the module. *)
Variable py : python.
(** [subprocess.check_output(args)] as a whole, the check of its argument
    list and the process it starts: its outcome given the calls made before
    it. *)
Variable run_process : list (list pyval) -> list pyval -> result string.
(** The name [tempfile] picks for its n-th file. *)
Variable tmp_name : nat -> string.
(** [os.path.isabs] and [os.path.relpath]; the latter raises on a path it
    cannot make relative, the empty one for instance. *)
Variable os_path_isabs : string -> bool.
Variable os_path_relpath : string -> string -> result string.

Variable self : idfdut.

Definition check_output (args : list pyval) : M string :=
  fun w => (run_process (tool_calls (trace w)) args, log (EvTool args) w).

Definition NamedTemporaryFile : M nat :=
  ask ReqTmpCreate ;;
  fun w =>
    let h := length (tmpfiles w) in
    (Ok h, set_tmpfiles (tmpfiles w ++ [TmpFile (tmp_name h) [] [] false]) w).

(** The command line of one flash attempt. *)
Definition flash_args (baud_rate : string) (download_config : list pyval)
  : list pyval :=
  [PStr "python"; PStr (esptool self);
   PStr "--port"; PStr (port self); PStr "--baud"; PStr baud_rate]
  ++ download_config.

(** The value of [error] after an [except ... as error] clause is left:
    Python 3 unbinds the name at the end of the clause, Python 2 keeps
    it. *)
Definition after_except (caught : exn) : option exn :=
  match py with
  | Python2 => Some caught
  | Python3 => None
  end.

(** The [for ... else] loop of [start_app]; [error] is the local name of
    that method. A success breaks out and skips the [else]. *)
Fixpoint retry_loop (download_config : list pyval) (error : option exn)
    (rates : list string) : M unit :=
  match rates with
  | [] => e <- load_name "error" error ;; raise e
  | baud_rate :: rates' =>
      fun w =>
        match check_output (flash_args baud_rate download_config) w with
        | (Ok _, w') => (Ok tt, w')
        | (Raise (CalledProcessError rc out), w') =>
            retry_loop download_config
              (after_except (CalledProcessError rc out)) rates' w'
        | (Raise e, w') => (Raise e, w')
        end
  end.

Definition retry_baud_rates : list string := ["921600"; "115200"].

(** The head of [start_app]: the flash arguments, with the blank NVS image
    appended when it is asked for. Gives the locals [download_config] and
    [nvs_file]; the latter stays unbound without [erase_nvs]. *)
Definition start_app_config (erase_nvs : bool)
  : M (list pyval * option nat) :=
  if erase_nvs then
    nvs <- getitem (partition_table self) "nvs" ;;
    let address := offset nvs in
    nvs <- getitem (partition_table self) "nvs" ;;
    let size := size nvs in
    nvs_file <- NamedTemporaryFile ;;
    image <- byte_times py Byte.xff size ;;
    tmp_write nvs_file image ;;
    tmp_flush nvs_file ;;
    download_config <-
      list_concat (download_config self) [address; PStr (tmp_name nvs_file)] ;;
    ret (download_config, Some nvs_file)
  else ret (download_config self, None).

Definition start_app_body (erase_nvs : bool) : M unit :=
  locals <- start_app_config erase_nvs ;;
  let download_config := fst locals in
  let nvs_file := snd locals in
  try_finally
    (retry_loop download_config (Some (IDFToolError EmptyString))
       retry_baud_rates)
    (if erase_nvs then
       f <- load_name "nvs_file" nvs_file ;; tmp_close f
     else ret tt).

Definition start_app (erase_nvs : bool) : M unit :=
  _tool_method (start_app_body erase_nvs).

Definition reset_body : M unit :=
  check_output
    [PStr "python"; PStr (esptool self); PStr "--port"; PStr (port self);
     PStr "run"] ;;
  ret tt.

Definition reset : M unit := _tool_method reset_body.

(** The [with] statement closes the file on either exit; the model keeps no
    state for that. *)
Definition erase_partition_body (partition : string) : M unit :=
  p <- getitem (partition_table self) partition ;;
  let address := offset p in
  p <- getitem (partition_table self) partition ;;
  let size := size p in
  f <- open_wb ".erase_partition.tmp" ;;
  blank <- chr_times py (chr_ff py) size ;;
  file_write f blank.

Definition erase_partition (partition : string) : M unit :=
  _tool_method (erase_partition_body partition).

(** [self.partition_table[key]] for a key taken from [kwargs]. *)
Definition partition_getitem (key : pyval) : M partition :=
  match key with
  | PStr name => getitem (partition_table self) name
  | PInt _ => raise (KeyError key)
  end.

(** The command line of a flash dump. *)
Definition read_flash_args (_address _size : pyval) (output_file : string)
  : list pyval :=
  [PStr "python"; PStr (esptool self); PStr "--port"; PStr (port self);
   PStr "--baud"; PStr "921600";
   PStr "--before"; PStr "default_reset"; PStr "--after"; PStr "hard_reset";
   PStr "read_flash"; _address; _size; PStr output_file].

(** The path handed to the tool. *)
Definition resolve_output (output_file : string) : M string :=
  if negb (os_path_isabs output_file)
  then lift (os_path_relpath output_file (log_folder self))
  else ret output_file.

Definition dump_flush_body (output_file : string) (kwargs : gmap string pyval)
  : M unit :=
  output_file <- resolve_output output_file ;;
  range <-
    (match kwargs !! "partition" with
     | Some key =>
         partition <- partition_getitem key ;;
         ret (offset partition, PInt (size partition))
     | None =>
         match kwargs !! "address", kwargs !! "size" with
         | Some a, Some s => ret (a, s)
         | _, _ =>
             raise (IDFToolError
               "You must specify 'partition' or ('address' and 'size') to dump flash")
         end
     end) ;;
  let _address := fst range in
  let _size := snd range in
  check_output (read_flash_args _address _size output_file) ;;
  ret tt.

Definition dump_flush (output_file : string) (kwargs : gmap string pyval)
  : M unit :=
  _tool_method (dump_flush_body output_file kwargs).

(** The method as written, and as the decorator leaves it. *)
Definition body (op : tool_op) : M unit :=
  match op with
  | OpStartApp erase_nvs => start_app_body erase_nvs
  | OpReset => reset_body
  | OpErasePartition partition => erase_partition_body partition
  | OpDumpFlush output_file kwargs => dump_flush_body output_file kwargs
  end.

Definition call (op : tool_op) : M unit :=
  match op with
  | OpStartApp erase_nvs => start_app erase_nvs
  | OpReset => reset
  | OpErasePartition partition => erase_partition partition
  | OpDumpFlush output_file kwargs => dump_flush output_file kwargs
  end.

End Methods.

(** *** The class methods that probe a port *)
Section ClassMethods.

Variable is_space : ascii -> bool.
Variable run_process : list (list pyval) -> list pyval -> result string.
(** [bytes.decode()] with the interpreter's default codec. *)
Variable decode : string -> result string.

(** [get_chip(cls, app, port)], with [app.esptool] for [app]: the chip ID or
    [None]. A tool run that exits with an error counts as empty output. *)
Definition get_chip (app_esptool port : string) : M (option string) :=
  output <-
    (fun w =>
       match check_output run_process
               [PStr "python"; PStr app_esptool; PStr "--port"; PStr port;
                PStr "chip_id"] w with
       | (Raise (CalledProcessError _ _), w') => (Ok EmptyString, w')
       | (r, w') => (r, w')
       end) ;;
  output <- (fun w => (decode output, w)) ;;
  let chip_type := CHIP_TYPE_PATTERN_search is_space output in
  ret chip_type.

(** [confirm_dut(cls, port, app)] *)
Definition confirm_dut (port app_esptool : string) : M bool :=
  chip <- get_chip app_esptool port ;;
  ret (match chip with Some _ => true | None => false end).

End ClassMethods.

End IDFDUT.
Import IDFDUT.

(** ** A bench set-up for concrete runs *)
Module Bench.

Definition dut : idfdut :=
  Session "esptool.py" "/logs" "/dev/ttyUSB0"
    [PStr "0x1000"; PStr "bootloader.bin"; PStr "0x10000"; PStr "app.bin"]
    {[ "nvs" := Partition (PStr "0x9000") 4 ]}.

(** A 64-bit interpreter on a machine that refuses nothing. *)
Definition willing : request -> option exn := fun _ => None.

(** The session holds its port; nothing has happened yet. *)
Definition idle : world := World true [] [] ∅ (2 ^ 63 - 1) willing.


(** The same, with a port that another program takes while it is released. *)
Definition port_taken : world :=
  World true [] [] ∅ (2 ^ 63 - 1)
    (fun r =>
       match r with
       | ReqOpenPort => Some (OSError "could not open port")
       | _ => None
       end).

(** [subprocess] of Python 3 on a POSIX system: it raises [TypeError] and
    starts nothing for a command line that holds something else than
    text. *)
Definition subprocess (tool : list (list pyval) -> list pyval -> result string)
  : list (list pyval) -> list pyval -> result string :=
  fun history args =>
    if forallb (fun a => match a with PStr _ => true | PInt _ => false end) args
    then tool history args
    else Raise (TypeError "expected str, bytes or os.PathLike object, not int").

Definition tool_ok : list (list pyval) -> list pyval -> result string :=
  subprocess (fun _ _ => Ok "Hard resetting...").

Definition tool_fails : list (list pyval) -> list pyval -> result string :=
  subprocess (fun _ args =>
    Raise (CalledProcessError 2
             match args !! 5%nat with
             | Some (PStr baud) => "failed at " +:+ baud
             | _ => "failed"
             end)).

(** The first invocation fails, later ones succeed. *)
Definition tool_fails_once : list (list pyval) -> list pyval -> result string :=
  fun history args =>
    match history with
    | [] => tool_fails history args
    | _ :: _ => tool_ok history args
    end.

Definition tmp_name (n : nat) : string := "/tmp/tmpnvs".
Definition isabs (path : string) : bool := PyStr.startswith path "/".
Definition relpath (path start : string) : result string :=
  match path with
  | EmptyString => Raise (ValueError "no path specified")
  | String _ _ => Ok ("../" +:+ path)
  end.

(** The whitespace of [re] on byte strings. *)
Definition ascii_space (c : ascii) : bool :=
  existsb (Ascii.eqb c) [" "; "009"; "010"; "011"; "012"; "013"]%char.

(** The codec on plain ASCII output. *)
Definition decode (output : string) : result string := Ok output.

(** What esptool prints on a chip_id run. *)
Definition chip_id_output : string :=
  "esptool.py v2.3.1" +:+ String "010" "Connecting...." +:+ String "010"
    ("Detecting chip type... ESP32" +:+ String "010"
       ("Chip is ESP32D0WDQ6 (revision 1)" +:+ String "010" EmptyString)).

Definition tool_chip_id : list (list pyval) -> list pyval -> result string :=
  subprocess (fun _ _ => Ok chip_id_output).

(** The interpreter that should run the tool is not there. *)
Definition tool_missing : list (list pyval) -> list pyval -> result string :=
  subprocess (fun _ _ => Raise (OSError "No such file or directory")).

(** A session whose partition table has no NVS line. *)
Definition dut_no_nvs : idfdut :=
  Session "esptool.py" "/logs" "/dev/ttyUSB0"
    [PStr "0x1000"; PStr "bootloader.bin"]
    {[ "factory" := Partition (PStr "0x10000") 1048576 ]}.

End Bench.

(** * The vocabulary of the properties *)

(** A port the default filter drops: its name mentions one of the
    alternatives of [INVALID_PORT_PATTERN]. *)
Definition invalid_port (p : string) : Prop :=
  PyStr.occurs_in "AMA" p \/ PyStr.occurs_in "Bluetooth" p.

(** The hint names an enumerated port, as it stands or through the macOS
    translation. *)
Definition hint_matches (ports : list string) (hint sys_platform : string)
  : Prop :=
  hint ∈ ports \/
  (sys_platform = "darwin" /\ PyStr.occurs_in "tty." hint /\
   PyStr.replace "tty." "cu." hint ∈ ports).

(** What a wrapped body may touch: it leaves the port and the environment
    alone and adds only tool invocations to the trace. *)
Definition port_neutral {A} (m : M A) : Prop :=
  forall w,
    port_open (snd (m w)) = port_open w /\
    refuses (snd (m w)) = refuses w /\
    exists calls, trace (snd (m w)) = trace w ++ map EvTool calls.

(** The environment lets the request through. *)
Definition granted (w : world) (r : request) : bool :=
  match refuses w r with
  | None => true
  | Some _ => false
  end.

(** What reopening the port comes to in [w]. *)
Definition reopened (w : world) : result unit :=
  match refuses w ReqOpenPort with
  | None => Ok tt
  | Some e => Raise e
  end.

(** One 0xFF byte per byte of a region of [size] bytes. *)
Definition blank_bytes (size : Z) : list Byte.byte :=
  replicate (Z.to_nat size) Byte.xff.

(** Nothing stands in the way of the blank image of [nvs]: the temporary
    file can be created, the bytes built, written and flushed, and the flash
    arguments extended. *)
Definition image_granted (self : idfdut) (nvs : partition) (w : world)
  : bool :=
  granted w ReqTmpCreate
  && index_sized w (size nvs)
  && granted w (ReqRepeat (size nvs))
  && granted w (ReqTmpWrite (Z.to_nat (size nvs)))
  && granted w ReqTmpFlush
  && granted w (ReqConcat (length (download_config self) + 2)).

Section Observations.

Variable py : python.
Variable run_process : list (list pyval) -> list pyval -> result string.
Variable tmp_name : nat -> string.
Variable self : idfdut.

(** The command lines of the attempts at [rates]. *)
Definition attempts (cfg : list pyval) (rates : list string)
  : list (list pyval) :=
  map (fun rate => IDFDUT.flash_args self rate cfg) rates.

(** Each attempt at [rates], made in order after the invocations [h], exits
    with an error; [errs] lists the return code and output of each. *)
Fixpoint all_fail (cfg : list pyval) (h : list (list pyval))
    (rates : list string) (errs : list (Z * string)) : Prop :=
  match rates, errs with
  | [], [] => True
  | rate :: rates', (rc, out) :: errs' =>
      run_process h (IDFDUT.flash_args self rate cfg)
      = Raise (CalledProcessError rc out) /\
      all_fail cfg (h ++ [IDFDUT.flash_args self rate cfg]) rates' errs'
  | _, _ => False
  end.

(** What the name [error] is bound to once the loop is exhausted. *)
Definition final_error (error : option exn) (errs : list (Z * string))
  : option exn :=
  match last errs with
  | None => error
  | Some (rc, out) => IDFDUT.after_except py (CalledProcessError rc out)
  end.

(** The blank image as it lies on disk while the flasher runs. *)
Definition nvs_image (nvs : partition) (w : world) : tmpfile :=
  TmpFile (tmp_name (length (tmpfiles w))) [] (blank_bytes (size nvs)) false.

(** The flash arguments [start_app] builds in the world [w]; none when the
    NVS partition is asked for and is missing, or its image cannot be
    produced. *)
Definition flash_config (erase_nvs : bool) (w : world)
  : option (list pyval) :=
  if erase_nvs then
    match partition_table self !! "nvs" with
    | Some nvs =>
        if image_granted self nvs w
        then Some (download_config self
                   ++ [offset nvs; PStr (tmp_name (length (tmpfiles w)))])
        else None
    | None => None
    end
  else Some (download_config self).

(** The world in which the loop starts: the port closed, the image
    written. *)
Definition loop_start (erase_nvs : bool) (w : world) : world :=
  let w0 := log EvClose (set_port false w) in
  if erase_nvs then
    match partition_table self !! "nvs" with
    | Some nvs => set_tmpfiles (tmpfiles w ++ [nvs_image nvs w]) w0
    | None => w0
    end
  else w0.

End Observations.

(** [out] is the path [dump_flush] hands to the tool for [output_file]: an
    absolute path as it is, another one made relative to the log folder. *)
Definition resolves_to (os_path_isabs : string -> bool)
    (os_path_relpath : string -> string -> result string) (self : idfdut)
    (output_file out : string) : Prop :=
  if os_path_isabs output_file
  then out = output_file
  else os_path_relpath output_file (log_folder self) = Ok out.

(** The flash arguments of the bench session with the NVS image. *)
Definition bench_nvs_config : list pyval :=
  download_config Bench.dut ++ [PStr "0x9000"; PStr "/tmp/tmpnvs"].

(** The command line of the probe. *)
Definition chip_id_args (app_esptool port : string) : list pyval :=
  [PStr "python"; PStr app_esptool; PStr "--port"; PStr port; PStr "chip_id"].

(** The parts of the bench's chip_id output around the banner line. *)
Definition bench_before_banner : string :=
  "esptool.py v2.3.1" +:+ String "010" "Connecting...." +:+ String "010" EmptyString.

Definition bench_after_name : string :=
  String "010" ("Chip is ESP32D0WDQ6 (revision 1)" +:+ String "010" EmptyString).

(** Every character of [s] passes [p]. *)
Fixpoint string_forall (p : ascii -> bool) (s : string) : bool :=
  match s with
  | EmptyString => true
  | String c s' => p c && string_forall p s'
  end.

(** The error is not the one [subprocess] raises for a non-zero exit. *)
Definition not_process_error (e : exn) : Prop :=
  forall rc out, e <> CalledProcessError rc out.

(** * Properties *)

(** ** Strings *)

Lemma startswith_spec (s sub : string) :
  PyStr.startswith s sub = true <-> exists rest, s = sub +:+ rest.
Proof.
  revert s. induction sub as [|a sub IH]; intros s; simpl.
  - split; [intros _; by exists s | done].
  - destruct s as [|b s].
    + split; [done | intros [rest Hrest]; discriminate].
    + rewrite andb_true_iff, Ascii.eqb_eq, IH. split.
      * intros [-> [rest ->]]. by exists rest.
      * intros [rest Hrest]. injection Hrest as -> ->. eauto.
Qed.

Lemma contains_spec (sub s : string) :
  PyStr.contains sub s = true <-> PyStr.occurs_in sub s.
Proof.
  unfold PyStr.occurs_in. induction s as [|c s IH].
  - simpl. rewrite orb_false_r, startswith_spec. split.
    + intros [rest ->]. by exists EmptyString, rest.
    + intros [[|c pre] [post Heq]]; [by exists post | discriminate].
  - change (PyStr.contains sub (String c s))
      with (PyStr.startswith (String c s) sub || PyStr.contains sub s).
    rewrite orb_true_iff, startswith_spec, IH. split.
    + intros [[rest ->] | (pre & post & ->)].
      * by exists EmptyString, rest.
      * by exists (String c pre), post.
    + intros [[|c' pre] [post Heq]].
      * left. by exists post.
      * right. injection Heq as -> ->. by exists pre, post.
Qed.

(** ** Lists *)

Lemma list_remove_first (x : string) (l : list string) :
  x ∈ l ->
  exists before after,
    l = before ++ x :: after /\ (x ∉ before) /\
    list_remove x l = Ok (before ++ after).
Proof.
  induction l as [|y l IH]; intros Hin.
  - by apply elem_of_nil in Hin.
  - simpl. destruct (decide (y = x)) as [->|Hne].
    + exists [], l. split_and!; [done | apply not_elem_of_nil | done].
    + apply elem_of_cons in Hin as [->|Hin]; [done|].
      destruct (IH Hin) as (before & after & -> & Hnot & ->).
      exists (y :: before), after. split_and!; [done | | done].
      rewrite not_elem_of_cons. split; [congruence | done].
Qed.

(** ** Port selection *)

Lemma search_invalid_spec (p : string) :
  Re.search INVALID_PORT_PATTERN p = true <-> invalid_port p.
Proof.
  unfold invalid_port, Re.search, INVALID_PORT_PATTERN. simpl.
  rewrite orb_false_r, orb_true_iff, !contains_spec. done.
Qed.

Lemma truthy_hint (hint : string) :
  hint <> EmptyString -> truthy (Some hint) = true.
Proof. by destruct hint. Qed.

(** The two promotions of [list_available_ports] share their shape. *)
Lemma promote_first (x : string) (ports : list string) :
  x ∈ ports ->
  exists before after,
    ports = before ++ x :: after /\ (x ∉ before) /\
    match list_remove x ports with
    | Ok rest => Ok (x :: rest)
    | Raise e => Raise e
    end = Ok (x :: before ++ after).
Proof.
  intros Hin. destruct (list_remove_first x ports Hin)
    as (before & after & Heq & Hnot & ->). eauto.
Qed.

(** The guarded [remove] never raises: the selection always returns a
    list. *)
Lemma list_available_ports_returns
    (ports : list string) (espport : option string) (sys_platform : string) :
  exists out, list_available_ports ports espport sys_platform = Ok out.
Proof.
  unfold list_available_ports, list_in.
  destruct (truthy espport); simpl; [|eauto].
  case_bool_decide as Hin.
  { destruct (promote_first _ _ Hin) as (? & ? & _ & _ & ->). eauto. }
  destruct (_ && _); [|eauto].
  case_bool_decide as Halt; [|eauto].
  destruct (promote_first _ _ Halt) as (? & ? & _ & _ & ->). eauto.
Qed.

(** The branch taken by a hint that is an enumerated port. *)
Lemma select_enumerated_hint (ports : list string) (hint sys_platform : string) :
  hint <> EmptyString ->
  hint ∈ ports ->
  list_available_ports ports (Some hint) sys_platform
  = match list_remove hint ports with
    | Ok rest => Ok (hint :: rest)
    | Raise e => Raise e
    end.
Proof.
  intros Hne Hin. unfold list_available_ports, list_in.
  rewrite (truthy_hint hint Hne). simpl.
  by rewrite bool_decide_eq_true_2 by done.
Qed.

(** The branch taken on macOS by a hint that is an enumerated port once
    translated. *)
Lemma select_translated_hint (ports : list string) (hint : string) :
  hint ∉ ports ->
  PyStr.occurs_in "tty." hint ->
  PyStr.replace "tty." "cu." hint ∈ ports ->
  list_available_ports ports (Some hint) "darwin"
  = match list_remove (PyStr.replace "tty." "cu." hint) ports with
    | Ok rest => Ok (PyStr.replace "tty." "cu." hint :: rest)
    | Raise e => Raise e
    end.
Proof.
  intros Hnot Htty Halt. unfold list_available_ports, list_in.
  assert (hint <> EmptyString) as Hne.
  { intros ->. destruct Htty as ([|? ?] & ? & ?); discriminate. }
  rewrite (truthy_hint hint Hne). simpl negb. cbv iota zeta.
  change (default EmptyString (Some hint)) with hint.
  rewrite (bool_decide_eq_false_2 _ Hnot).
  apply contains_spec in Htty. rewrite Htty.
  change (String.eqb "darwin" "darwin" && true) with true. cbv iota zeta.
  by rewrite bool_decide_eq_true_2 by done.
Qed.

(** Putting a removed element in front permutes the list. *)
Lemma list_remove_permutation (x : string) (l rest : list string) :
  list_remove x l = Ok rest -> x :: rest ≡ₚ l.
Proof.
  revert rest. induction l as [|y l IH]; intros rest; simpl; [done|].
  destruct (decide (y = x)) as [->|Hne].
  - by intros [= ->].
  - destruct (list_remove x l) as [r|e]; [|done].
    intros [= <-]. rewrite Permutation_swap. by rewrite (IH r).
Qed.

(** C4: when the hint is one of the enumerated ports, the selection is the
    hint followed by the other ports in their original order, the hint's
    first occurrence being the one taken out. *)
Theorem hint_match_moves_hint_first
    (ports : list string) (hint sys_platform : string) :
  hint <> EmptyString ->
  hint ∈ ports ->
  exists before after,
    ports = before ++ hint :: after /\ (hint ∉ before) /\
    list_available_ports ports (Some hint) sys_platform
    = Ok (hint :: before ++ after).
Proof.
  intros Hne Hin. rewrite select_enumerated_hint by done.
  by apply promote_first.
Qed.

Lemma hint_match_moves_hint_first_witness :
  "/dev/ttyUSB1" <> EmptyString /\
  ("/dev/ttyUSB1" ∈ ["/dev/ttyUSB0"; "/dev/ttyUSB1"; "/dev/ttyUSB2"]) /\
  exists before after,
    ["/dev/ttyUSB0"; "/dev/ttyUSB1"; "/dev/ttyUSB2"]
    = before ++ "/dev/ttyUSB1" :: after /\ ("/dev/ttyUSB1" ∉ before) /\
    list_available_ports ["/dev/ttyUSB0"; "/dev/ttyUSB1"; "/dev/ttyUSB2"]
      (Some "/dev/ttyUSB1") "linux2"
    = Ok ("/dev/ttyUSB1" :: before ++ after).
Proof.
  split; [discriminate|].
  split; [compute_done|].
  apply hint_match_moves_hint_first; [discriminate | compute_done].
Defined.

Lemma filter_sublist {A} (f : A -> bool) (l : list A) :
  sublist (List.filter f l) l.
Proof.
  induction l as [|x l IH]; simpl; [constructor|].
  destruct (f x); by constructor.
Qed.

Lemma filter_count_kept (f : string -> bool) (l : list string) (p : string) :
  f p = true ->
  count_occ string_dec (List.filter f l) p = count_occ string_dec l p.
Proof.
  intros Hp. induction l as [|x l IH]; simpl; [done|].
  destruct (f x) eqn:Hx; simpl; destruct (string_dec x p) as [->|Hne];
    congruence.
Qed.

(** C5: without a hint (the variable unset, or set to the empty string) the
    selection keeps the enumeration order, holds no port whose name mentions
    "AMA" or "Bluetooth", and holds every other port as often as the
    enumeration does. *)
Theorem no_hint_filters_invalid_ports
    (ports : list string) (sys_platform : string) :
  exists out,
    list_available_ports ports None sys_platform = Ok out /\
    list_available_ports ports (Some EmptyString) sys_platform = Ok out /\
    sublist out ports /\
    (forall p, invalid_port p -> p ∉ out) /\
    (forall p, ~ invalid_port p ->
       count_occ string_dec out p = count_occ string_dec ports p).
Proof.
  eexists. split_and!; [reflexivity | reflexivity | apply filter_sublist | |].
  - intros p Hbad Hin. apply list_elem_of_In, filter_In in Hin as [_ Hkeep].
    apply search_invalid_spec in Hbad. rewrite Hbad in Hkeep. discriminate.
  - intros p Hgood. apply filter_count_kept.
    destruct (Re.search INVALID_PORT_PATTERN p) eqn:Hs; [|done].
    by apply search_invalid_spec in Hs.
Qed.

(** C6: on macOS, a hint that is no enumerated port but mentions "tty." and
    names an enumerated port once "tty." is replaced by "cu." puts that
    translated name first, followed by the other ports in their original
    order. *)
Theorem mac_hint_translation (ports : list string) (hint : string) :
  hint ∉ ports ->
  PyStr.occurs_in "tty." hint ->
  PyStr.replace "tty." "cu." hint ∈ ports ->
  exists before after,
    ports = before ++ PyStr.replace "tty." "cu." hint :: after /\
    (PyStr.replace "tty." "cu." hint ∉ before) /\
    list_available_ports ports (Some hint) "darwin"
    = Ok (PyStr.replace "tty." "cu." hint :: before ++ after).
Proof.
  intros Hnot Htty Halt. rewrite select_translated_hint by done.
  by apply promote_first.
Qed.

Lemma mac_hint_translation_witness :
  ("/dev/tty.SLAB_USBtoUART"
     ∉ ["/dev/cu.Bluetooth-Incoming-Port"; "/dev/cu.SLAB_USBtoUART"]) /\
  PyStr.occurs_in "tty." "/dev/tty.SLAB_USBtoUART" /\
  ("/dev/cu.SLAB_USBtoUART"
     ∈ ["/dev/cu.Bluetooth-Incoming-Port"; "/dev/cu.SLAB_USBtoUART"]) /\
  exists before after,
    ["/dev/cu.Bluetooth-Incoming-Port"; "/dev/cu.SLAB_USBtoUART"]
    = before ++ "/dev/cu.SLAB_USBtoUART" :: after /\
    ("/dev/cu.SLAB_USBtoUART" ∉ before) /\
    list_available_ports
      ["/dev/cu.Bluetooth-Incoming-Port"; "/dev/cu.SLAB_USBtoUART"]
      (Some "/dev/tty.SLAB_USBtoUART") "darwin"
    = Ok ("/dev/cu.SLAB_USBtoUART" :: before ++ after).
Proof.
  assert (PyStr.occurs_in "tty." "/dev/tty.SLAB_USBtoUART") as Htty
    by (exists "/dev/", "SLAB_USBtoUART"; reflexivity).
  split; [compute_done|]. split; [exact Htty|]. split; [compute_done|].
  exact (mac_hint_translation
           ["/dev/cu.Bluetooth-Incoming-Port"; "/dev/cu.SLAB_USBtoUART"]
           "/dev/tty.SLAB_USBtoUART"
           ltac:(compute_done) Htty ltac:(compute_done)).
Defined.

(** C7: with a hint that matches, the selection is a permutation of the
    enumerated ports. *)
Theorem matching_hint_permutes
    (ports : list string) (hint sys_platform : string) :
  hint <> EmptyString ->
  hint_matches ports hint sys_platform ->
  exists out,
    list_available_ports ports (Some hint) sys_platform = Ok out /\
    out ≡ₚ ports.
Proof.
  intros Hne Hmatch.
  assert (forall x, x ∈ ports ->
            exists out,
              match list_remove x ports with
              | Ok rest => Ok (x :: rest)
              | Raise e => Raise e
              end = Ok out /\ out ≡ₚ ports) as Hpromote.
  { intros x Hx. destruct (list_remove_first x ports Hx) as (? & ? & _ & _ & Hrm).
    pose proof (list_remove_permutation x ports _ Hrm) as Hperm.
    rewrite Hrm. eauto. }
  destruct (decide (hint ∈ ports)) as [Hin|Hnot].
  - rewrite select_enumerated_hint by done. by apply Hpromote.
  - destruct Hmatch as [Hin | (-> & Htty & Halt)]; [done|].
    rewrite select_translated_hint by done. by apply Hpromote.
Qed.

Lemma matching_hint_permutes_witness :
  "/dev/ttyUSB1" <> EmptyString /\
  hint_matches ["/dev/ttyUSB0"; "/dev/ttyAMA0"; "/dev/ttyUSB1"; "/dev/ttyUSB1"]
    "/dev/ttyUSB1" "linux2" /\
  exists out,
    list_available_ports
      ["/dev/ttyUSB0"; "/dev/ttyAMA0"; "/dev/ttyUSB1"; "/dev/ttyUSB1"]
      (Some "/dev/ttyUSB1") "linux2" = Ok out /\
    out ≡ₚ ["/dev/ttyUSB0"; "/dev/ttyAMA0"; "/dev/ttyUSB1"; "/dev/ttyUSB1"].
Proof.
  assert (hint_matches
            ["/dev/ttyUSB0"; "/dev/ttyAMA0"; "/dev/ttyUSB1"; "/dev/ttyUSB1"]
            "/dev/ttyUSB1" "linux2") as Hm by (left; compute_done).
  split; [discriminate|]. split; [exact Hm|].
  apply matching_hint_permutes; [discriminate | exact Hm].
Defined.

(** C9: a non-empty hint that matches nothing gives back the enumeration as
    it is; the default filter is not applied. *)
Theorem unmatched_hint_returns_ports
    (ports : list string) (hint sys_platform : string) :
  hint <> EmptyString ->
  ~ hint_matches ports hint sys_platform ->
  list_available_ports ports (Some hint) sys_platform = Ok ports.
Proof.
  intros Hne Hno. unfold hint_matches in Hno.
  unfold list_available_ports, list_in.
  rewrite (truthy_hint hint Hne). simpl negb. cbv iota zeta.
  change (default EmptyString (Some hint)) with hint.
  rewrite bool_decide_eq_false_2 by tauto.
  destruct (String.eqb sys_platform "darwin") eqn:Hplat; [|done].
  apply String.eqb_eq in Hplat.
  destruct (PyStr.contains "tty." hint) eqn:Htty; [|done].
  apply contains_spec in Htty. simpl andb. cbv iota.
  rewrite bool_decide_eq_false_2 by tauto. done.
Qed.

Lemma unmatched_hint_returns_ports_witness :
  "/dev/ttyUSB7" <> EmptyString /\
  ~ hint_matches ["/dev/ttyAMA0"; "/dev/ttyUSB0"] "/dev/ttyUSB7" "linux2" /\
  list_available_ports ["/dev/ttyAMA0"; "/dev/ttyUSB0"]
    (Some "/dev/ttyUSB7") "linux2"
  = Ok ["/dev/ttyAMA0"; "/dev/ttyUSB0"].
Proof.
  assert (~ hint_matches ["/dev/ttyAMA0"; "/dev/ttyUSB0"]
            "/dev/ttyUSB7" "linux2") as Hno.
  { intros [Hin | (Hplat & _)]; [|discriminate].
    revert Hin. compute_done. }
  split; [discriminate|]. split; [exact Hno|].
  apply unmatched_hint_returns_ports; [discriminate | exact Hno].
Defined.

(** The examples of the port policy. *)
Example ports_no_hint :
  list_available_ports ["/dev/ttyUSB0"; "/dev/ttyAMA0"] None "linux2"
  = Ok ["/dev/ttyUSB0"].
Proof. reflexivity. Qed.

Example ports_hint_second :
  list_available_ports ["/dev/ttyUSB0"; "/dev/ttyUSB1"] (Some "/dev/ttyUSB1") "linux2"
  = Ok ["/dev/ttyUSB1"; "/dev/ttyUSB0"].
Proof. reflexivity. Qed.

Example ports_mac_translation :
  list_available_ports ["/dev/cu.SLAB_USBtoUART"] (Some "/dev/tty.SLAB_USBtoUART") "darwin"
  = Ok ["/dev/cu.SLAB_USBtoUART"].
Proof. reflexivity. Qed.

Example replace_all_occurrences :
  PyStr.replace "tty." "cu." "/tty.x/tty.tty.y" = "/cu.x/cu.cu.y".
Proof. reflexivity. Qed.

(** ** The methods *)

Lemma tool_calls_app (evs evs' : list event) :
  tool_calls (evs ++ evs') = tool_calls evs ++ tool_calls evs'.
Proof.
  induction evs as [|[| |args] evs IH]; simpl; [done | done | done |].
  by rewrite IH.
Qed.

Lemma tool_calls_map (calls : list (list pyval)) :
  tool_calls (map EvTool calls) = calls.
Proof. induction calls as [|c calls IH]; simpl; [done | by rewrite IH]. Qed.

Lemma lookup_fresh_handle (tfs : list tmpfile) (tf : tmpfile) :
  (tfs ++ [tf]) !! length tfs = Some tf.
Proof. by apply list_lookup_middle. Qed.

Lemma insert_fresh_handle (tfs : list tmpfile) (tf tf' : tmpfile) :
  <[length tfs := tf']> (tfs ++ [tf]) = tfs ++ [tf'].
Proof.
  rewrite <- (Nat.add_0_r (length tfs)). by rewrite insert_app_r.
Qed.

Lemma ask_granted (w : world) (r : request) :
  granted w r = true -> ask r w = (Ok tt, w).
Proof. unfold granted, ask. by destruct (refuses w r). Qed.

Lemma ask_refused (w : world) (r : request) (e : exn) :
  refuses w r = Some e -> ask r w = (Raise e, w).
Proof. unfold ask. by intros ->. Qed.

Create HintDb neutral.

Section MethodFacts.

Variable py : python.
Variable run_process : list (list pyval) -> list pyval -> result string.
Variable tmp_name : nat -> string.
Variable os_path_isabs : string -> bool.
Variable os_path_relpath : string -> string -> result string.
Variable self : idfdut.

Local Abbreviation check_output := (IDFDUT.check_output run_process).
Local Abbreviation NamedTemporaryFile := (IDFDUT.NamedTemporaryFile tmp_name).
Local Abbreviation flash_args := (IDFDUT.flash_args self).
Local Abbreviation retry_loop := (IDFDUT.retry_loop py run_process self).
Local Abbreviation start_app_config :=
  (IDFDUT.start_app_config py tmp_name self).
Local Abbreviation start_app_body := (IDFDUT.start_app_body py run_process tmp_name self).
Local Abbreviation start_app := (IDFDUT.start_app py run_process tmp_name self).
Local Abbreviation reset_body := (IDFDUT.reset_body run_process self).
Local Abbreviation reset := (IDFDUT.reset run_process self).
Local Abbreviation erase_partition_body := (IDFDUT.erase_partition_body py self).
Local Abbreviation erase_partition := (IDFDUT.erase_partition py self).
Local Abbreviation read_flash_args := (IDFDUT.read_flash_args self).
Local Abbreviation resolve_output :=
  (IDFDUT.resolve_output os_path_isabs os_path_relpath self).
Local Abbreviation dump_flush_body :=
  (IDFDUT.dump_flush_body run_process os_path_isabs os_path_relpath self).
Local Abbreviation dump_flush :=
  (IDFDUT.dump_flush run_process os_path_isabs os_path_relpath self).
Local Abbreviation attempts := (attempts self).
Local Abbreviation all_fail := (all_fail run_process self).
Local Abbreviation final_error := (final_error py).
Local Abbreviation nvs_image := (nvs_image tmp_name).
Local Abbreviation flash_config := (flash_config tmp_name self).
Local Abbreviation loop_start := (loop_start tmp_name self).
Local Abbreviation image_granted := (image_granted self).
Local Abbreviation resolves_to :=
  (resolves_to os_path_isabs os_path_relpath self).
Local Abbreviation body :=
  (IDFDUT.body py run_process tmp_name os_path_isabs os_path_relpath self).
Local Abbreviation call :=
  (IDFDUT.call py run_process tmp_name os_path_isabs os_path_relpath self).

(** *** What a wrapped body may touch *)

(** A step that changes neither the port, nor the environment, nor the
    trace. *)
Lemma neutral_silent {A} (m : M A) :
  (forall w,
     port_open (snd (m w)) = port_open w /\
     refuses (snd (m w)) = refuses w /\
     trace (snd (m w)) = trace w) ->
  port_neutral m.
Proof.
  intros H w. destruct (H w) as (Hp & Hr & Ht). split_and!; [done | done |].
  exists []. rewrite Ht. simpl. by rewrite app_nil_r.
Qed.

Lemma neutral_ret {A} (a : A) : port_neutral (ret a).
Proof. by apply neutral_silent. Qed.

Lemma neutral_raise {A} (e : exn) : port_neutral (@raise A e).
Proof. by apply neutral_silent. Qed.

Lemma neutral_lift {A} (r : result A) : port_neutral (lift r).
Proof. by apply neutral_silent. Qed.

Lemma neutral_ask (r : request) : port_neutral (ask r).
Proof.
  apply neutral_silent. intros w. unfold ask. by destruct (refuses w r).
Qed.

Lemma neutral_bind {A B} (m : M A) (k : A -> M B) :
  port_neutral m -> (forall a, port_neutral (k a)) -> port_neutral (bind m k).
Proof.
  intros Hm Hk w. unfold bind. destruct (Hm w) as (Hp & Hr & c1 & Ht).
  destruct (m w) as [[a|e] w1]; simpl in *.
  - destruct (Hk a w1) as (Hp' & Hr' & c2 & Ht').
    split_and!; [congruence | congruence |].
    exists (c1 ++ c2). by rewrite Ht', Ht, map_app, app_assoc.
  - split_and!; [done | done |]. by exists c1.
Qed.

Lemma neutral_try_finally {A} (body : M A) (fin : M unit) :
  port_neutral body -> port_neutral fin -> port_neutral (try_finally body fin).
Proof.
  intros Hb Hf w. unfold try_finally. destruct (Hb w) as (Hp & Hr & c1 & Ht).
  destruct (body w) as [r w1]; simpl in *.
  destruct (Hf w1) as (Hp' & Hr' & c2 & Ht').
  assert (port_open (snd (fin w1)) = port_open w /\
          refuses (snd (fin w1)) = refuses w /\
          trace (snd (fin w1)) = trace w ++ map EvTool (c1 ++ c2))
    as (? & ? & ?).
  { split_and!; [congruence | congruence |].
    by rewrite Ht', Ht, map_app, app_assoc. }
  destruct (fin w1) as [[[]|e] w2]; simpl in *; eauto.
Qed.

Lemma neutral_getitem {V} (d : gmap string V) (k : string) :
  port_neutral (getitem d k).
Proof.
  unfold getitem. destruct (d !! k); [apply neutral_ret | apply neutral_raise].
Qed.

Lemma neutral_load_name {A} (name : string) (v : option A) :
  port_neutral (load_name name v).
Proof. destruct v; [apply neutral_ret | apply neutral_raise]. Qed.

Lemma neutral_with_tmpfile (h : nat) (f : tmpfile -> tmpfile) :
  port_neutral (with_tmpfile h f).
Proof.
  apply neutral_silent. intros w. unfold with_tmpfile.
  by destruct (tmpfiles w !! h) as [tf|]; [destruct (tf_closed tf)|].
Qed.

Lemma neutral_tmp_write (h : nat) (data : list Byte.byte) :
  port_neutral (tmp_write h data).
Proof.
  apply neutral_bind; [apply neutral_ask|]. intros _.
  apply neutral_with_tmpfile.
Qed.

Lemma neutral_tmp_flush (h : nat) : port_neutral (tmp_flush h).
Proof.
  apply neutral_bind; [apply neutral_ask|]. intros _.
  apply neutral_with_tmpfile.
Qed.

Lemma neutral_tmp_close (h : nat) : port_neutral (tmp_close h).
Proof.
  apply neutral_silent. intros w. unfold tmp_close.
  by destruct (tmpfiles w !! h) as [tf|].
Qed.

Lemma neutral_NamedTemporaryFile : port_neutral NamedTemporaryFile.
Proof.
  apply neutral_bind; [apply neutral_ask|]. intros _. by apply neutral_silent.
Qed.

Lemma neutral_repeat_check (n : Z) : port_neutral (repeat_check py n).
Proof.
  apply neutral_silent. intros w. unfold repeat_check, ask.
  destruct (index_sized w n); [|done]. by destruct (refuses w (ReqRepeat n)).
Qed.

Lemma neutral_byte_times (b : Byte.byte) (n : Z) :
  port_neutral (byte_times py b n).
Proof.
  apply neutral_bind; [apply neutral_repeat_check|]. intros _.
  apply neutral_ret.
Qed.

Lemma neutral_chr_times (c : pychr) (n : Z) :
  port_neutral (chr_times py c n).
Proof.
  apply neutral_bind; [apply neutral_repeat_check|]. intros _.
  apply neutral_ret.
Qed.

Lemma neutral_list_concat {A} (a b : list A) : port_neutral (list_concat a b).
Proof.
  apply neutral_bind; [apply neutral_ask|]. intros _. apply neutral_ret.
Qed.

Lemma neutral_open_wb (path : string) : port_neutral (open_wb path).
Proof.
  apply neutral_bind; [apply neutral_ask|]. intros _. by apply neutral_silent.
Qed.

Lemma neutral_file_write (path : string) (s : pystring) :
  port_neutral (file_write path s).
Proof.
  destruct s; simpl; [|apply neutral_raise].
  apply neutral_bind; [apply neutral_ask|]. intros _. by apply neutral_silent.
Qed.

Lemma neutral_check_output (args : list pyval) :
  port_neutral (check_output args).
Proof. intros w. split_and!; [done | done |]. by exists [args]. Qed.

Lemma neutral_retry_loop cfg error rates :
  port_neutral (retry_loop cfg error rates).
Proof.
  revert error. induction rates as [|rate rates IH]; intros error.
  - simpl. apply neutral_bind; [apply neutral_load_name|].
    intros e. apply neutral_raise.
  - intros w. simpl.
    destruct (run_process (tool_calls (trace w)) (flash_args rate cfg))
      as [out|e].
    + simpl. split_and!; [done | done |]. by exists [flash_args rate cfg].
    + assert (port_neutral (fun w0 : world =>
                (@Raise unit e, log (EvTool (flash_args rate cfg)) w0))) as Hstop.
      { intros w0. split_and!; [done | done |].
        by exists [flash_args rate cfg]. }
      destruct e; try apply Hstop.
      destruct (IH (IDFDUT.after_except py (CalledProcessError returncode output))
                  (log (EvTool (flash_args rate cfg)) w))
        as (Hp & Hr & c & Ht).
      split_and!; [done | done |]. exists (flash_args rate cfg :: c).
      rewrite Ht. simpl. by rewrite <- app_assoc.
Qed.

Local Hint Resolve neutral_ret neutral_raise neutral_lift neutral_ask
  neutral_getitem neutral_load_name neutral_with_tmpfile neutral_tmp_write
  neutral_tmp_flush neutral_tmp_close neutral_NamedTemporaryFile
  neutral_byte_times neutral_chr_times neutral_list_concat neutral_open_wb
  neutral_file_write neutral_check_output neutral_retry_loop : neutral.

Ltac neutral :=
  repeat first
    [ progress eauto with neutral
    | apply neutral_bind; [|intros ?]
    | apply neutral_try_finally
    | match goal with |- port_neutral (if ?b then _ else _) => destruct b end
    | match goal with |- port_neutral (match ?x with _ => _ end) => destruct x end ].

Lemma neutral_start_app_body erase_nvs : port_neutral (start_app_body erase_nvs).
Proof.
  unfold IDFDUT.start_app_body, IDFDUT.start_app_config.
  neutral.
Qed.

Lemma neutral_reset_body : port_neutral reset_body.
Proof. unfold IDFDUT.reset_body. neutral. Qed.

Lemma neutral_erase_partition_body p : port_neutral (erase_partition_body p).
Proof. unfold IDFDUT.erase_partition_body. neutral. Qed.

Lemma neutral_dump_flush_body out kwargs :
  port_neutral (dump_flush_body out kwargs).
Proof.
  unfold IDFDUT.dump_flush_body, IDFDUT.resolve_output,
    IDFDUT.partition_getitem.
  neutral.
Qed.

Lemma neutral_body (op : tool_op) : port_neutral (body op).
Proof.
  destruct op; simpl;
    [ apply neutral_start_app_body | apply neutral_reset_body
    | apply neutral_erase_partition_body | apply neutral_dump_flush_body ].
Qed.

Lemma call_decorated (op : tool_op) : call op = _tool_method (body op).
Proof. by destruct op. Qed.

(** *** The decorator *)

(** The world in which the wrapped body starts, and what follows it. *)
Lemma tool_method_runs_body {A} (func : M A) (w : world) :
  _tool_method func w =
  match func (log EvClose (set_port false w)) with
  | (Ok a, w') =>
      match refuses w' ReqOpenPort with
      | None => (Ok a, log EvOpen (set_port true w'))
      | Some e => (Raise e, w')
      end
  | (Raise e, w') => (Raise e, w')
  end.
Proof.
  unfold _tool_method, close, open, ask, ret, bind.
  simpl. destruct (func (log EvClose (set_port false w))) as [[a|e] w']; [|done].
  simpl. by destruct (refuses w' ReqOpenPort).
Qed.

(** C1 (amended): each decorated method closes the port before its body
    runs, so every tool invocation comes after the close and before any
    reopening. When the body returns, the port is reopened and the method
    returns, unless the port fails to reopen: that failure is raised and the
    port stays closed. When the body raises, the same error reaches the
    caller and the port stays closed. *)
Theorem tool_method_bracket (op : tool_op) (w : world) :
  exists calls,
    match call op w with
    | (Ok _, w') =>
        trace w' = trace w ++ EvClose :: map EvTool calls ++ [EvOpen] /\
        port_open w' = true /\
        fst (body op (log EvClose (set_port false w))) = Ok tt /\
        refuses w ReqOpenPort = None
    | (Raise e, w') =>
        trace w' = trace w ++ EvClose :: map EvTool calls /\
        port_open w' = false /\
        (fst (body op (log EvClose (set_port false w))) = Raise e \/
         (fst (body op (log EvClose (set_port false w))) = Ok tt /\
          refuses w ReqOpenPort = Some e))
    end.
Proof.
  rewrite call_decorated, tool_method_runs_body.
  destruct (neutral_body op (log EvClose (set_port false w)))
    as (Hport & Henv & calls & Htrace).
  exists calls.
  destruct (body op (log EvClose (set_port false w))) as [[[]|e] w'];
    simpl in *.
  - rewrite Henv. destruct (refuses w ReqOpenPort) as [e|] eqn:Hopen; simpl.
    + split_and!; [|done|by right]. rewrite Htrace. by rewrite <- !app_assoc.
    + split_and!; [|done|done|done]. rewrite Htrace. by rewrite <- !app_assoc.
  - split_and!; [|done|by left]. rewrite Htrace. by rewrite <- !app_assoc.
Qed.

(** *** Running [start_app] *)

Lemma bind_ok {A B} (m : M A) (k : A -> M B) (w w' : world) (a : A) :
  m w = (Ok a, w') -> bind m k w = k a w'.
Proof. unfold bind. by intros ->. Qed.

Lemma bind_raise {A B} (m : M A) (k : A -> M B) (w w' : world) (e : exn) :
  m w = (Raise e, w') -> bind m k w = (Raise e, w').
Proof. unfold bind. by intros ->. Qed.

Lemma getitem_ok {V} (d : gmap string V) (k : string) (v : V) (w : world) :
  d !! k = Some v -> getitem d k w = (Ok v, w).
Proof. unfold getitem. by intros ->. Qed.

Lemma tmp_create_granted (w : world) :
  granted w ReqTmpCreate = true ->
  NamedTemporaryFile w
  = (Ok (length (tmpfiles w)),
     set_tmpfiles
       (tmpfiles w ++ [TmpFile (tmp_name (length (tmpfiles w))) [] [] false])
       w).
Proof.
  intros Hok. unfold IDFDUT.NamedTemporaryFile.
  by rewrite (bind_ok _ _ w w tt) by by apply ask_granted.
Qed.

Lemma list_concat_granted {A} (a b : list A) (w : world) :
  granted w (ReqConcat (length a + length b)) = true ->
  list_concat a b w = (Ok (a ++ b), w).
Proof.
  intros Hok. unfold list_concat.
  by rewrite (bind_ok _ _ w w tt) by by apply ask_granted.
Qed.

Lemma byte_times_granted (b : Byte.byte) (n : Z) (w : world) :
  index_sized w n = true ->
  granted w (ReqRepeat n) = true ->
  byte_times py b n w = (Ok (replicate (Z.to_nat n) b), w).
Proof.
  intros Hfit Hok. unfold byte_times.
  rewrite (bind_ok _ _ w w tt); [done|].
  unfold repeat_check. rewrite Hfit. by apply ask_granted.
Qed.

Lemma tmp_write_fresh (tfs : list tmpfile) (name : string)
    (data : list Byte.byte) (w : world) :
  tmpfiles w = tfs ++ [TmpFile name [] [] false] ->
  granted w (ReqTmpWrite (length data)) = true ->
  tmp_write (length tfs) data w
  = (Ok tt, set_tmpfiles (tfs ++ [TmpFile name data [] false]) w).
Proof.
  intros Htfs Hok. unfold tmp_write.
  rewrite (bind_ok _ _ w w tt) by by apply ask_granted.
  unfold with_tmpfile. rewrite Htfs, lookup_fresh_handle. simpl.
  by rewrite insert_fresh_handle.
Qed.

Lemma tmp_flush_fresh (tfs : list tmpfile) (name : string)
    (data : list Byte.byte) (w : world) :
  tmpfiles w = tfs ++ [TmpFile name data [] false] ->
  granted w ReqTmpFlush = true ->
  tmp_flush (length tfs) w
  = (Ok tt, set_tmpfiles (tfs ++ [TmpFile name [] data false]) w).
Proof.
  intros Htfs Hok. unfold tmp_flush.
  rewrite (bind_ok _ _ w w tt) by by apply ask_granted.
  unfold with_tmpfile. rewrite Htfs, lookup_fresh_handle. simpl.
  by rewrite insert_fresh_handle.
Qed.

Lemma start_app_config_nvs (nvs : partition) (w : world) :
  partition_table self !! "nvs" = Some nvs ->
  image_granted nvs w = true ->
  start_app_config true w
  = (Ok (download_config self
         ++ [offset nvs; PStr (tmp_name (length (tmpfiles w)))],
         Some (length (tmpfiles w))),
     set_tmpfiles (tmpfiles w ++ [nvs_image nvs w]) w).
Proof.
  intros Hnvs Hgranted. unfold image_granted in Hgranted.
  repeat (apply andb_true_iff in Hgranted as [Hgranted ?]).
  unfold IDFDUT.start_app_config.
  rewrite (bind_ok _ _ w w nvs) by by apply getitem_ok.
  rewrite (bind_ok _ _ w w nvs) by by apply getitem_ok.
  erewrite bind_ok by by apply tmp_create_granted.
  erewrite bind_ok by by apply byte_times_granted.
  erewrite bind_ok
    by (apply (tmp_write_fresh (tmpfiles w)); [done|];
        by rewrite length_replicate).
  erewrite bind_ok by by apply (tmp_flush_fresh (tmpfiles w)).
  erewrite bind_ok by (apply list_concat_granted; eassumption).
  reflexivity.
Qed.

Lemma start_app_config_plain (w : world) :
  start_app_config false w = (Ok (download_config self, None), w).
Proof. reflexivity. Qed.

(** *** The retry loop *)

Lemma tool_calls_log_tool (args : list pyval) (w : world) :
  tool_calls (trace (log (EvTool args) w)) = tool_calls (trace w) ++ [args].
Proof. simpl. by rewrite tool_calls_app. Qed.

Lemma retry_loop_success cfg error failed errs rate out rest w :
  all_fail cfg (tool_calls (trace w)) failed errs ->
  run_process (tool_calls (trace w) ++ attempts cfg failed)
    (flash_args rate cfg) = Ok out ->
  exists w',
    retry_loop cfg error (failed ++ rate :: rest) w = (Ok tt, w') /\
    tool_calls (trace w')
    = tool_calls (trace w) ++ attempts cfg (failed ++ [rate]).
Proof.
  revert error errs w.
  induction failed as [|r failed IH]; intros error errs w Hfail Hok.
  - simpl in *. rewrite app_nil_r in Hok. unfold IDFDUT.check_output.
    rewrite Hok. eexists. split; [reflexivity|]. apply tool_calls_log_tool.
  - destruct errs as [|[rc o] errs]; [done|]. destruct Hfail as [Hr Hfail].
    simpl. unfold IDFDUT.check_output. rewrite Hr.
    destruct (IH (IDFDUT.after_except py (CalledProcessError rc o)) errs
                (log (EvTool (flash_args r cfg)) w)) as (w' & Hrun & Hcalls).
    + by rewrite tool_calls_log_tool.
    + rewrite tool_calls_log_tool, <- app_assoc. exact Hok.
    + exists w'. split; [exact Hrun|].
      rewrite Hcalls, tool_calls_log_tool, <- app_assoc. done.
Qed.

Lemma retry_loop_exhausted cfg error rates errs w :
  all_fail cfg (tool_calls (trace w)) rates errs ->
  exists w',
    retry_loop cfg error rates w
    = (match final_error error errs with
       | Some e => Raise e
       | None => Raise (UnboundLocalError "error")
       end, w') /\
    tool_calls (trace w') = tool_calls (trace w) ++ attempts cfg rates.
Proof.
  revert error errs w.
  induction rates as [|r rates IH]; intros error errs w Hfail.
  - destruct errs; [|done]. exists w. split; [|simpl; by rewrite app_nil_r].
    unfold final_error. simpl. by destruct error.
  - destruct errs as [|[rc o] errs]; [done|]. destruct Hfail as [Hr Hfail].
    simpl. unfold IDFDUT.check_output. rewrite Hr.
    destruct (IH (IDFDUT.after_except py (CalledProcessError rc o)) errs
                (log (EvTool (flash_args r cfg)) w)) as (w' & Hrun & Hcalls).
    + by rewrite tool_calls_log_tool.
    + exists w'. split.
      * rewrite Hrun. unfold final_error.
        destruct errs as [|e errs]; [done|]. rewrite last_cons_cons.
        destruct (last (e :: errs)) as [[? ?]|] eqn:Hlast; [done|].
        by apply last_None in Hlast.
      * rewrite Hcalls, tool_calls_log_tool, <- app_assoc. done.
Qed.

Lemma retry_loop_tmpfiles cfg error rates w :
  tmpfiles (snd (retry_loop cfg error rates w)) = tmpfiles w.
Proof.
  revert error w. induction rates as [|r rates IH]; intros error w.
  - simpl. by destruct error.
  - simpl. unfold IDFDUT.check_output.
    destruct (run_process (tool_calls (trace w)) (flash_args r cfg))
      as [out|e]; [done|].
    destruct e; try done. by rewrite IH.
Qed.


(** *** [start_app] as a whole *)

Lemma loop_start_calls erase_nvs w :
  tool_calls (trace (loop_start erase_nvs w)) = tool_calls (trace w).
Proof.
  unfold loop_start.
  destruct erase_nvs; [destruct (partition_table self !! "nvs")|]; simpl;
    by rewrite tool_calls_app, app_nil_r.
Qed.

Lemma loop_start_refuses erase_nvs w :
  refuses (loop_start erase_nvs w) = refuses w.
Proof.
  unfold loop_start.
  by destruct erase_nvs; [destruct (partition_table self !! "nvs")|].
Qed.

Lemma retry_loop_refuses cfg error rates erase_nvs w :
  refuses (snd (retry_loop cfg error rates (loop_start erase_nvs w)))
  = refuses w.
Proof.
  destruct (neutral_retry_loop cfg error rates (loop_start erase_nvs w))
    as (_ & -> & _).
  apply loop_start_refuses.
Qed.

Lemma start_app_run erase_nvs w cfg :
  flash_config erase_nvs w = Some cfg ->
  start_app erase_nvs w =
  let (r, w2) :=
    retry_loop cfg (Some (IDFToolError EmptyString)) retry_baud_rates
      (loop_start erase_nvs w) in
  let w3 :=
    if erase_nvs then snd (tmp_close (length (tmpfiles w)) w2) else w2 in
  match r with
  | Ok a =>
      match refuses w ReqOpenPort with
      | None => (Ok a, log EvOpen (set_port true w3))
      | Some e => (Raise e, w3)
      end
  | Raise e => (Raise e, w3)
  end.
Proof.
  intros Hcfg.
  pose proof (retry_loop_refuses cfg (Some (IDFToolError EmptyString))
                retry_baud_rates erase_nvs w) as Henv.
  revert Hcfg Henv. unfold flash_config, loop_start. intros Hcfg Henv.
  unfold IDFDUT.start_app. rewrite tool_method_runs_body.
  unfold IDFDUT.start_app_body.
  destruct erase_nvs.
  - destruct (partition_table self !! "nvs") as [nvs|] eqn:Hnvs; [|done].
    destruct (image_granted nvs w) eqn:Hgranted; [|done].
    injection Hcfg as <-.
    erewrite bind_ok by by apply start_app_config_nvs.
    unfold try_finally. simpl fst. simpl snd.
    destruct (retry_loop _ _ _ _) as [r w2]. simpl in Henv.
    erewrite bind_ok by reflexivity.
    unfold tmp_close.
    destruct (tmpfiles w2 !! _); destruct r; simpl; by rewrite ?Henv.
  - injection Hcfg as <-.
    erewrite bind_ok by by apply start_app_config_plain.
    unfold try_finally. simpl fst.
    destruct (retry_loop _ _ _ _) as [r w2]. simpl in Henv.
    destruct r; simpl; by rewrite ?Henv.
Qed.

Lemma start_app_outcome erase_nvs w cfg r w2 :
  flash_config erase_nvs w = Some cfg ->
  retry_loop cfg (Some (IDFToolError EmptyString)) retry_baud_rates
    (loop_start erase_nvs w) = (r, w2) ->
  fst (start_app erase_nvs w)
  = match r with
    | Ok _ => reopened w
    | Raise e => Raise e
    end /\
  tool_calls (trace (snd (start_app erase_nvs w))) = tool_calls (trace w2).
Proof.
  intros Hcfg Hloop. rewrite (start_app_run _ _ _ Hcfg), Hloop.
  assert (tool_calls (trace
            (if erase_nvs then snd (tmp_close (length (tmpfiles w)) w2)
             else w2)) = tool_calls (trace w2)) as Hsame.
  { destruct erase_nvs; [|done]. unfold tmp_close.
    by destruct (tmpfiles w2 !! _). }
  unfold reopened.
  destruct r as [[]|e]; simpl; [|done].
  destruct (refuses w ReqOpenPort); simpl; [done|].
  split; [done|]. by rewrite tool_calls_app, app_nil_r.
Qed.

(** C3: the attempts are made at 921600 and then at 115200 baud, each with
    its rate on the command line; an attempt that succeeds is the last
    invocation of the tool and ends the flash with success, the method then
    returning what the reopening of the port comes to. *)
Theorem start_app_short_circuit erase_nvs w cfg :
  flash_config erase_nvs w = Some cfg ->
  let attempt rate :=
    [PStr "python"; PStr (esptool self); PStr "--port"; PStr (port self);
     PStr "--baud"; PStr rate] ++ cfg in
  (forall out,
     run_process (tool_calls (trace w)) (attempt "921600") = Ok out ->
     fst (start_app erase_nvs w) = reopened w /\
     tool_calls (trace (snd (start_app erase_nvs w)))
     = tool_calls (trace w) ++ [attempt "921600"]) /\
  (forall rc err out,
     run_process (tool_calls (trace w)) (attempt "921600")
     = Raise (CalledProcessError rc err) ->
     run_process (tool_calls (trace w) ++ [attempt "921600"])
       (attempt "115200") = Ok out ->
     fst (start_app erase_nvs w) = reopened w /\
     tool_calls (trace (snd (start_app erase_nvs w)))
     = tool_calls (trace w) ++ [attempt "921600"; attempt "115200"]).
Proof.
  intros Hcfg attempt.
  assert (forall rate, attempt rate = flash_args rate cfg) as Hattempt by done.
  rewrite !Hattempt. split.
  - intros out Hok.
    destruct (retry_loop_success cfg (Some (IDFToolError EmptyString))
                [] [] "921600" out ["115200"] (loop_start erase_nvs w))
      as (w2 & Hloop & Hcalls).
    + done.
    + simpl. by rewrite app_nil_r, loop_start_calls.
    + destruct (start_app_outcome _ _ _ _ _ Hcfg Hloop) as [-> ->].
      by rewrite Hcalls, loop_start_calls.
  - intros rc err out Hfail Hok.
    destruct (retry_loop_success cfg (Some (IDFToolError EmptyString))
                ["921600"] [(rc, err)] "115200" out []
                (loop_start erase_nvs w)) as (w2 & Hloop & Hcalls).
    + simpl. by rewrite loop_start_calls.
    + simpl. by rewrite loop_start_calls.
    + destruct (start_app_outcome _ _ _ _ _ Hcfg Hloop) as [-> ->].
      by rewrite Hcalls, loop_start_calls.
Qed.

(** The exhausted loop under either interpreter. *)
Lemma start_app_exhausted erase_nvs w cfg rc1 err1 rc2 err2 :
  flash_config erase_nvs w = Some cfg ->
  run_process (tool_calls (trace w)) (flash_args "921600" cfg)
  = Raise (CalledProcessError rc1 err1) ->
  run_process (tool_calls (trace w) ++ [flash_args "921600" cfg])
    (flash_args "115200" cfg) = Raise (CalledProcessError rc2 err2) ->
  fst (start_app erase_nvs w)
  = match py with
    | Python2 => Raise (CalledProcessError rc2 err2)
    | Python3 => Raise (UnboundLocalError "error")
    end /\
  tool_calls (trace (snd (start_app erase_nvs w)))
  = tool_calls (trace w) ++ [flash_args "921600" cfg; flash_args "115200" cfg].
Proof.
  intros Hcfg Hfirst Hsecond.
  destruct (retry_loop_exhausted cfg (Some (IDFToolError EmptyString))
              retry_baud_rates [(rc1, err1); (rc2, err2)]
              (loop_start erase_nvs w)) as (w2 & Hloop & Hcalls).
  { simpl. by rewrite loop_start_calls. }
  destruct (start_app_outcome _ _ _ _ _ Hcfg Hloop) as [-> ->].
  rewrite Hcalls, loop_start_calls. split; [|done].
  unfold final_error, IDFDUT.after_except. simpl. by destruct py.
Qed.

(** The invocations of the loop are the attempts at a prefix of the rates,
    a non-empty one when there are rates. *)
Lemma retry_loop_calls_prefix cfg error rates w :
  exists n,
    (n <= length rates)%nat /\ (rates <> [] -> (1 <= n)%nat) /\
    tool_calls (trace (snd (retry_loop cfg error rates w)))
    = tool_calls (trace w) ++ attempts cfg (take n rates).
Proof.
  revert error w. induction rates as [|r rates IH]; intros error w.
  - exists O. split_and!; [done|done|].
    simpl. destruct error; simpl; by rewrite app_nil_r.
  - simpl retry_loop. unfold IDFDUT.check_output.
    assert (tool_calls (trace (log (EvTool (flash_args r cfg)) w))
            = tool_calls (trace w) ++ attempts cfg (take 1 (r :: rates)))
      as Hone by (simpl; by rewrite tool_calls_app).
    destruct (run_process (tool_calls (trace w)) (flash_args r cfg))
      as [out|e].
    { exists 1%nat. split_and!; [simpl; lia | done | exact Hone]. }
    destruct e;
      try (exists 1%nat; split_and!; [simpl; lia | done | exact Hone]).
    destruct (IH (IDFDUT.after_except py (CalledProcessError returncode output))
                (log (EvTool (flash_args r cfg)) w)) as (n & Hn & _ & Hcalls).
    exists (S n). split_and!; [simpl; lia | lia |].
    rewrite Hcalls, Hone. simpl. by rewrite <- app_assoc.
Qed.

(** The command lines [start_app] hands over once its flash arguments are
    built: the attempt at 921600 baud, followed or not by the one at
    115200. *)
Lemma start_app_calls erase_nvs w cfg :
  flash_config erase_nvs w = Some cfg ->
  tool_calls (trace (snd (start_app erase_nvs w)))
  = tool_calls (trace w) ++ [flash_args "921600" cfg] \/
  tool_calls (trace (snd (start_app erase_nvs w)))
  = tool_calls (trace w) ++ [flash_args "921600" cfg; flash_args "115200" cfg].
Proof.
  intros Hcfg.
  destruct (retry_loop_calls_prefix cfg (Some (IDFToolError EmptyString))
              retry_baud_rates (loop_start erase_nvs w))
    as (n & Hle & Hge & Hcalls).
  destruct (retry_loop _ _ _ _) as [r w2] eqn:Hloop.
  destruct (start_app_outcome _ _ _ _ _ Hcfg Hloop) as [_ ->].
  simpl in Hcalls, Hle. rewrite Hcalls, loop_start_calls.
  assert (n = 1 \/ n = 2)%nat as [-> | ->]
    by (specialize (Hge ltac:(done)); lia).
  - by left.
  - by right.
Qed.


(** *** [dump_flush] *)

Lemma tool_method_check_output (args : list pyval) (w : world) :
  fst (_tool_method (check_output args ;; ret tt) w)
  = match run_process (tool_calls (trace w)) args with
    | Ok _ => reopened w
    | Raise e => Raise e
    end /\
  tool_calls (trace (snd (_tool_method (check_output args ;; ret tt) w)))
  = tool_calls (trace w) ++ [args].
Proof.
  rewrite tool_method_runs_body. unfold bind, IDFDUT.check_output, ret, reopened.
  simpl. rewrite tool_calls_app, app_nil_r.
  destruct (run_process (tool_calls (trace w)) args); simpl;
    [destruct (refuses w ReqOpenPort); simpl|];
    rewrite !tool_calls_app; simpl; by rewrite ?app_nil_r.
Qed.

Lemma tool_method_ext {A} (m1 m2 : M A) (w : world) :
  (forall w0, m1 w0 = m2 w0) -> _tool_method m1 w = _tool_method m2 w.
Proof. intros Heq. by rewrite !tool_method_runs_body, Heq. Qed.

Lemma resolve_output_run (output_file out : string) (w : world) :
  resolves_to output_file out -> resolve_output output_file w = (Ok out, w).
Proof.
  unfold resolves_to, IDFDUT.resolve_output.
  destruct (os_path_isabs output_file); simpl; [by intros ->|].
  unfold lift. by intros ->.
Qed.

(** C8 (amended): once the output path is resolved, a partition given in
    [kwargs] that names a line of the table decides the range, whatever else
    is given: the [read_flash] command line handed to
    [subprocess.check_output] carries the partition's offset and size, and
    the method returns what that call and then the reopening of the port
    come to; without a partition, an address and a size given together are
    handed over in the same way; in every other case the method raises
    [IDFToolError] and [subprocess.check_output] is not called. *)
Theorem dump_flush_target (output_file out : string)
    (kwargs : gmap string pyval) (w : world) :
  resolves_to output_file out ->
  let r := fst (dump_flush output_file kwargs w) in
  let calls := tool_calls (trace (snd (dump_flush output_file kwargs w))) in
  let read_flash _address _size :=
    [PStr "python"; PStr (esptool self); PStr "--port"; PStr (port self);
     PStr "--baud"; PStr "921600"; PStr "--before"; PStr "default_reset";
     PStr "--after"; PStr "hard_reset"; PStr "read_flash";
     _address; _size; PStr out] in
  let invoked args :=
    r = match run_process (tool_calls (trace w)) args with
        | Ok _ => reopened w
        | Raise e => Raise e
        end /\
    calls = tool_calls (trace w) ++ [args] in
  (forall name p,
     kwargs !! "partition" = Some (PStr name) ->
     partition_table self !! name = Some p ->
     invoked (read_flash (offset p) (PInt (size p)))) /\
  (forall a s,
     kwargs !! "partition" = None ->
     kwargs !! "address" = Some a ->
     kwargs !! "size" = Some s ->
     invoked (read_flash a s)) /\
  (kwargs !! "partition" = None ->
   kwargs !! "address" = None \/ kwargs !! "size" = None ->
   r = Raise (IDFToolError
         "You must specify 'partition' or ('address' and 'size') to dump flash") /\
   calls = tool_calls (trace w)).
Proof.
  intros Hout. cbv zeta.
  unfold IDFDUT.dump_flush, IDFDUT.dump_flush_body. split_and!.
  - intros name p Hk Hp.
    rewrite (tool_method_ext _
      (check_output (read_flash_args (offset p) (PInt (size p)) out) ;; ret tt)).
    { apply tool_method_check_output. }
    intros w0.
    rewrite (bind_ok _ _ w0 w0 out) by by apply resolve_output_run.
    rewrite Hk. unfold bind, IDFDUT.partition_getitem, getitem.
    rewrite Hp. done.
  - intros a s Hk Ha Hs.
    rewrite (tool_method_ext _
      (check_output (read_flash_args a s out) ;; ret tt)).
    { apply tool_method_check_output. }
    intros w0.
    rewrite (bind_ok _ _ w0 w0 out) by by apply resolve_output_run.
    by rewrite Hk, Ha, Hs.
  - intros Hk Hmissing. rewrite tool_method_runs_body.
    rewrite (bind_ok _ _ _ _ out) by by apply resolve_output_run.
    rewrite Hk.
    assert (forall k : pyval * pyval -> M unit,
              bind (match kwargs !! "address", kwargs !! "size" with
                    | Some a, Some s => ret (a, s)
                    | _, _ => raise (IDFToolError
         "You must specify 'partition' or ('address' and 'size') to dump flash")
                    end) k
              = raise (IDFToolError
         "You must specify 'partition' or ('address' and 'size') to dump flash"))
      as ->.
    { intros k. destruct Hmissing as [-> | ->]; [done|].
      by destruct (kwargs !! "address"). }
    simpl. by rewrite tool_calls_app, app_nil_r.
Qed.

End MethodFacts.

(** C1, as the specification has it, fails: a reset whose tool run exits
    with an error returns with the port closed. *)
Lemma reset_failure_leaves_port_closed :
  port_open Bench.idle = true /\
  fst (reset Bench.tool_fails Bench.dut Bench.idle)
  = Raise (CalledProcessError 2 "failed") /\
  port_open (snd (reset Bench.tool_fails Bench.dut Bench.idle)) = false /\
  trace (snd (reset Bench.tool_fails Bench.dut Bench.idle))
  = [EvClose;
     EvTool [PStr "python"; PStr "esptool.py"; PStr "--port";
             PStr "/dev/ttyUSB0"; PStr "run"]].
Proof. by vm_compute. Qed.

(** ** Concrete runs on the bench *)

(** A port that fails to reopen: the reset itself succeeded, the caller
    gets the failure and the port stays closed. *)
Example reset_port_taken :
  fst (reset Bench.tool_ok Bench.dut Bench.port_taken)
  = Raise (OSError "could not open port") /\
  port_open (snd (reset Bench.tool_ok Bench.dut Bench.port_taken)) = false /\
  trace (snd (reset Bench.tool_ok Bench.dut Bench.port_taken))
  = [EvClose;
     EvTool [PStr "python"; PStr "esptool.py"; PStr "--port";
             PStr "/dev/ttyUSB0"; PStr "run"]].
Proof. by vm_compute. Qed.

Lemma bench_flash_config :
  flash_config Bench.tmp_name Bench.dut true Bench.idle = Some bench_nvs_config.
Proof. by vm_compute. Qed.

Lemma start_app_short_circuit_witness :
  flash_config Bench.tmp_name Bench.dut true Bench.idle = Some bench_nvs_config /\
  fst (start_app Python3 Bench.tool_ok Bench.tmp_name Bench.dut true Bench.idle)
  = Ok tt /\
  tool_calls
    (trace (snd (start_app Python3 Bench.tool_ok Bench.tmp_name Bench.dut true
                   Bench.idle)))
  = [[PStr "python"; PStr "esptool.py"; PStr "--port"; PStr "/dev/ttyUSB0";
      PStr "--baud"; PStr "921600";
      PStr "0x1000"; PStr "bootloader.bin"; PStr "0x10000"; PStr "app.bin";
      PStr "0x9000"; PStr "/tmp/tmpnvs"]].
Proof.
  split; [exact bench_flash_config|].
  exact (proj1 (start_app_short_circuit Python3 Bench.tool_ok
                  Bench.tmp_name Bench.dut true Bench.idle
                  bench_nvs_config bench_flash_config)
           "Hard resetting..." eq_refl).
Defined.

(** The fallback: 921600 fails, 115200 succeeds, two invocations in that
    order. *)
Example start_app_falls_back :
  fst (start_app Python2 Bench.tool_fails_once Bench.tmp_name Bench.dut false
         Bench.idle) = Ok tt /\
  tool_calls
    (trace (snd (start_app Python2 Bench.tool_fails_once Bench.tmp_name
                   Bench.dut false Bench.idle)))
  = [[PStr "python"; PStr "esptool.py"; PStr "--port"; PStr "/dev/ttyUSB0";
      PStr "--baud"; PStr "921600";
      PStr "0x1000"; PStr "bootloader.bin"; PStr "0x10000"; PStr "app.bin"];
     [PStr "python"; PStr "esptool.py"; PStr "--port"; PStr "/dev/ttyUSB0";
      PStr "--baud"; PStr "115200";
      PStr "0x1000"; PStr "bootloader.bin"; PStr "0x10000"; PStr "app.bin"]].
Proof. by vm_compute. Qed.

(** Under Python 2 the exhausted loop raises the error of the last
    attempt. *)
Lemma start_app_exhausted_python2 run_process tmp_name self erase_nvs w cfg
    rc1 err1 rc2 err2 :
  flash_config tmp_name self erase_nvs w = Some cfg ->
  run_process (tool_calls (trace w)) (IDFDUT.flash_args self "921600" cfg)
  = Raise (CalledProcessError rc1 err1) ->
  run_process (tool_calls (trace w) ++ [IDFDUT.flash_args self "921600" cfg])
    (IDFDUT.flash_args self "115200" cfg)
  = Raise (CalledProcessError rc2 err2) ->
  fst (start_app Python2 run_process tmp_name self erase_nvs w)
  = Raise (CalledProcessError rc2 err2).
Proof.
  intros Hcfg H1 H2.
  apply (start_app_exhausted Python2 _ _ _ _ _ _ _ _ _ _ Hcfg H1 H2).
Qed.

(** C2 under Python 3: when both attempts exit with an error, what
    [start_app] raises is not the error of the last attempt. The name [error]
    was unbound when the [except] clause was left, and [raise error] fails
    on reading it. *)
Theorem start_app_exhausted_python3 run_process tmp_name self erase_nvs w cfg
    rc1 err1 rc2 err2 :
  flash_config tmp_name self erase_nvs w = Some cfg ->
  run_process (tool_calls (trace w)) (IDFDUT.flash_args self "921600" cfg)
  = Raise (CalledProcessError rc1 err1) ->
  run_process (tool_calls (trace w) ++ [IDFDUT.flash_args self "921600" cfg])
    (IDFDUT.flash_args self "115200" cfg)
  = Raise (CalledProcessError rc2 err2) ->
  fst (start_app Python3 run_process tmp_name self erase_nvs w)
  = Raise (UnboundLocalError "error").
Proof.
  intros Hcfg H1 H2.
  apply (start_app_exhausted Python3 _ _ _ _ _ _ _ _ _ _ Hcfg H1 H2).
Qed.

Lemma start_app_exhausted_python3_witness :
  flash_config Bench.tmp_name Bench.dut true Bench.idle = Some bench_nvs_config /\
  Bench.tool_fails (tool_calls (trace Bench.idle))
    (IDFDUT.flash_args Bench.dut "921600" bench_nvs_config)
  = Raise (CalledProcessError 2 "failed at 921600") /\
  Bench.tool_fails
    (tool_calls (trace Bench.idle)
     ++ [IDFDUT.flash_args Bench.dut "921600" bench_nvs_config])
    (IDFDUT.flash_args Bench.dut "115200" bench_nvs_config)
  = Raise (CalledProcessError 2 "failed at 115200") /\
  fst (start_app Python3 Bench.tool_fails Bench.tmp_name Bench.dut true
         Bench.idle)
  = Raise (UnboundLocalError "error").
Proof.
  split; [exact bench_flash_config|].
  split; [reflexivity|]. split; [reflexivity|].
  exact (start_app_exhausted_python3 Bench.tool_fails Bench.tmp_name Bench.dut
           true Bench.idle bench_nvs_config
           2 "failed at 921600" 2 "failed at 115200"
           bench_flash_config eq_refl eq_refl).
Defined.

(** The same run under Python 2. *)
Example start_app_exhausted_on_bench_python2 :
  fst (start_app Python2 Bench.tool_fails Bench.tmp_name Bench.dut true
         Bench.idle)
  = Raise (CalledProcessError 2 "failed at 115200").
Proof. by vm_compute. Qed.



(** C8, as the specification has it, fails: a partition given together with
    an address and a size is not refused as ambiguous. No [IDFToolError] is
    raised; the partition's range goes to the invocation, which
    [subprocess] refuses for the integer size on its command line. *)
Lemma dump_flush_partition_with_range :
  fst (dump_flush Bench.tool_ok Bench.isabs Bench.relpath Bench.dut
         "/tmp/dump.bin"
         {[ "partition" := PStr "nvs"; "address" := PStr "0x1000";
            "size" := PStr "16" ]}
         Bench.idle)
  = Raise (TypeError "expected str, bytes or os.PathLike object, not int") /\
  tool_calls
    (trace (snd (dump_flush Bench.tool_ok Bench.isabs Bench.relpath Bench.dut
                   "/tmp/dump.bin"
                   {[ "partition" := PStr "nvs"; "address" := PStr "0x1000";
                      "size" := PStr "16" ]}
                   Bench.idle)))
  = [[PStr "python"; PStr "esptool.py"; PStr "--port"; PStr "/dev/ttyUSB0";
      PStr "--baud"; PStr "921600"; PStr "--before"; PStr "default_reset";
      PStr "--after"; PStr "hard_reset"; PStr "read_flash";
      PStr "0x9000"; PInt 4; PStr "/tmp/dump.bin"]].
Proof. by vm_compute. Qed.

(** A partition too large for a repetition count: the temporary file
    exists, nothing was written, and the error leaves it open. *)
Example start_app_image_too_large :
  let huge :=
    Session "esptool.py" "/logs" "/dev/ttyUSB0" [PStr "0x1000"; PStr "app.bin"]
      {[ "nvs" := Partition (PStr "0x9000") (2 ^ 63) ]} in
  fst (start_app Python3 Bench.tool_ok Bench.tmp_name huge true Bench.idle)
  = Raise (OverflowError "cannot fit 'int' into an index-sized integer") /\
  tmpfiles (snd (start_app Python3 Bench.tool_ok Bench.tmp_name huge true
                   Bench.idle))
  = [TmpFile "/tmp/tmpnvs" [] [] false].
Proof. by vm_compute. Qed.

(** A path that cannot be made relative: the error comes before the keyword
    arguments are looked at. *)
Example dump_flush_empty_path :
  fst (dump_flush Bench.tool_ok Bench.isabs Bench.relpath Bench.dut
         EmptyString {[ "partition" := PStr "phy_init" ]} Bench.idle)
  = Raise (ValueError "no path specified").
Proof. by vm_compute. Qed.

Lemma bench_absolute_path :
  resolves_to Bench.isabs Bench.relpath Bench.dut "/tmp/dump.bin"
    "/tmp/dump.bin".
Proof. reflexivity. Qed.

Lemma dump_flush_target_witness :
  resolves_to Bench.isabs Bench.relpath Bench.dut "/tmp/dump.bin"
    "/tmp/dump.bin" /\
  (* a partition alone: its range reaches the call, which [subprocess]
     refuses for the integer size *)
  (fst (dump_flush Bench.tool_ok Bench.isabs Bench.relpath Bench.dut
          "/tmp/dump.bin" {[ "partition" := PStr "nvs" ]} Bench.idle)
   = Raise (TypeError "expected str, bytes or os.PathLike object, not int") /\
   tool_calls
     (trace (snd (dump_flush Bench.tool_ok Bench.isabs Bench.relpath Bench.dut
                    "/tmp/dump.bin" {[ "partition" := PStr "nvs" ]} Bench.idle)))
   = [[PStr "python"; PStr "esptool.py"; PStr "--port"; PStr "/dev/ttyUSB0";
       PStr "--baud"; PStr "921600"; PStr "--before"; PStr "default_reset";
       PStr "--after"; PStr "hard_reset"; PStr "read_flash";
       PStr "0x9000"; PInt 4; PStr "/tmp/dump.bin"]]) /\
  (* an address and a size: the dump is made *)
  (fst (dump_flush Bench.tool_ok Bench.isabs Bench.relpath Bench.dut
          "/tmp/dump.bin"
          {[ "address" := PStr "0x1000"; "size" := PStr "16" ]} Bench.idle)
   = Ok tt /\
   tool_calls
     (trace (snd (dump_flush Bench.tool_ok Bench.isabs Bench.relpath Bench.dut
                    "/tmp/dump.bin"
                    {[ "address" := PStr "0x1000"; "size" := PStr "16" ]}
                    Bench.idle)))
   = [[PStr "python"; PStr "esptool.py"; PStr "--port"; PStr "/dev/ttyUSB0";
       PStr "--baud"; PStr "921600"; PStr "--before"; PStr "default_reset";
       PStr "--after"; PStr "hard_reset"; PStr "read_flash";
       PStr "0x1000"; PStr "16"; PStr "/tmp/dump.bin"]]) /\
  (* an address without a size *)
  fst (dump_flush Bench.tool_ok Bench.isabs Bench.relpath Bench.dut
         "/tmp/dump.bin" {[ "address" := PStr "0x1000" ]} Bench.idle)
  = Raise (IDFToolError
      "You must specify 'partition' or ('address' and 'size') to dump flash") /\
  tool_calls
    (trace (snd (dump_flush Bench.tool_ok Bench.isabs Bench.relpath Bench.dut
                   "/tmp/dump.bin" {[ "address" := PStr "0x1000" ]} Bench.idle)))
  = [].
Proof.
  split; [exact bench_absolute_path|]. split.
  { refine (proj1 (dump_flush_target Bench.tool_ok Bench.isabs
              Bench.relpath Bench.dut "/tmp/dump.bin" "/tmp/dump.bin"
              {[ "partition" := PStr "nvs" ]} Bench.idle bench_absolute_path)
              "nvs" (Partition (PStr "0x9000") 4) _ _); by vm_compute. }
  split.
  { refine (proj1 (proj2 (dump_flush_target Bench.tool_ok Bench.isabs
              Bench.relpath Bench.dut "/tmp/dump.bin" "/tmp/dump.bin"
              {[ "address" := PStr "0x1000"; "size" := PStr "16" ]} Bench.idle
              bench_absolute_path))
              (PStr "0x1000") (PStr "16") _ _ _); by vm_compute. }
  refine (proj2 (proj2 (dump_flush_target Bench.tool_ok Bench.isabs
            Bench.relpath Bench.dut "/tmp/dump.bin" "/tmp/dump.bin"
            {[ "address" := PStr "0x1000" ]} Bench.idle bench_absolute_path))
            _ _);
    [by vm_compute | right; by vm_compute].
Defined.
(** * Further properties *)

(** ** Port selection *)

Lemma list_remove_subset (x : string) (l rest : list string) :
  list_remove x l = Ok rest -> forall p, p ∈ rest -> p ∈ l.
Proof.
  intros Hrm p Hp. rewrite <- (list_remove_permutation x l rest Hrm).
  by apply elem_of_cons; right.
Qed.

(** X1: whatever the non-empty hint and the platform, the selection is a
    permutation of the enumerated ports: a hint never drops and never adds a
    port. *)
Theorem hinted_selection_permutes
    (ports : list string) (hint sys_platform : string) :
  hint <> EmptyString ->
  exists out,
    list_available_ports ports (Some hint) sys_platform = Ok out /\
    out ≡ₚ ports.
Proof.
  intros Hne. unfold list_available_ports, list_in.
  rewrite (truthy_hint hint Hne). simpl negb. cbv iota zeta.
  change (default EmptyString (Some hint)) with hint.
  assert (forall x, x ∈ ports ->
            exists out,
              match list_remove x ports with
              | Ok rest => Ok (x :: rest)
              | Raise e => Raise e
              end = Ok out /\ out ≡ₚ ports) as Hpromote.
  { intros x Hx.
    destruct (list_remove_first x ports Hx) as (? & ? & _ & _ & Hrm).
    pose proof (list_remove_permutation x ports _ Hrm). rewrite Hrm. eauto. }
  case_bool_decide as Hin; [by apply Hpromote|].
  destruct (_ && _); [|eauto].
  case_bool_decide as Halt; [by apply Hpromote | eauto].
Qed.

Lemma hinted_selection_permutes_witness :
  "/dev/ttyS9" <> EmptyString /\
  exists out,
    list_available_ports ["/dev/ttyAMA0"; "/dev/ttyUSB0"] (Some "/dev/ttyS9")
      "linux2" = Ok out /\
    out ≡ₚ ["/dev/ttyAMA0"; "/dev/ttyUSB0"].
Proof.
  split; [discriminate|].
  apply hinted_selection_permutes. discriminate.
Defined.

(** X2: in every case, with or without a hint, each selected port is an
    enumerated one. *)
Theorem selection_within_enumeration
    (ports : list string) (espport : option string) (sys_platform : string) :
  exists out,
    list_available_ports ports espport sys_platform = Ok out /\
    forall p, p ∈ out -> p ∈ ports.
Proof.
  unfold list_available_ports, list_in.
  assert (forall x, x ∈ ports ->
            exists out,
              match list_remove x ports with
              | Ok rest => Ok (x :: rest)
              | Raise e => Raise e
              end = Ok out /\ forall p, p ∈ out -> p ∈ ports) as Hpromote.
  { intros x Hx.
    destruct (list_remove_first x ports Hx) as (? & ? & _ & _ & Hrm).
    pose proof (list_remove_subset x ports _ Hrm) as Hsub. rewrite Hrm.
    eexists. split; [reflexivity|].
    intros p [->|Hp]%elem_of_cons; [done | by apply Hsub]. }
  destruct (truthy espport); simpl.
  - case_bool_decide as Hin; [by apply Hpromote|].
    destruct (_ && _); [|eauto].
    case_bool_decide as Halt; [by apply Hpromote | eauto].
  - eexists. split; [reflexivity|].
    intros p Hp. apply list_elem_of_In, filter_In in Hp as [Hp _].
    by apply list_elem_of_In.
Qed.

Lemma filter_all_kept {A} (f : A -> bool) (l : list A) :
  List.filter f (List.filter f l) = List.filter f l.
Proof.
  induction l as [|x l IH]; simpl; [done|].
  destruct (f x) eqn:Hx; simpl; [|done]. by rewrite Hx, IH.
Qed.

(** X3: without a hint, selecting again from the selection changes
    nothing. *)
Theorem no_hint_selection_idempotent
    (ports : list string) (sys_platform : string) :
  exists out,
    list_available_ports ports None sys_platform = Ok out /\
    list_available_ports out None sys_platform = Ok out.
Proof.
  eexists. split; [reflexivity|].
  unfold list_available_ports. simpl. by rewrite filter_all_kept.
Qed.

(** *** The macOS translation on device names *)

Lemma startswith_app_self (lit rest : string) :
  PyStr.startswith (lit +:+ rest) lit = true.
Proof. apply startswith_spec. by exists rest. Qed.

(** An occurrence of "tty." that starts before an occurrence of "tty." lies
    before it altogether. *)
Lemma tty_no_overlap (p rest : string) :
  p <> EmptyString ->
  PyStr.startswith (p +:+ "tty." +:+ rest) "tty." = true ->
  PyStr.startswith p "tty." = true.
Proof.
  intros Hp.
  destruct p as [|c1 [|c2 [|c3 [|c4 p]]]]; [done| | | |];
    simpl; rewrite ?andb_false_r; done.
Qed.

Lemma replace_scan_tty_step (pre post : string) :
  PyStr.contains "tty." pre = false ->
  PyStr.replace_scan "tty." "cu." O (pre +:+ "tty." +:+ post)
  = pre +:+ "cu." +:+ PyStr.replace_scan "tty." "cu." O post.
Proof.
  induction pre as [|c pre IH]; intros Hpre.
  - reflexivity.
  - change (PyStr.contains "tty." (String c pre))
      with (PyStr.startswith (String c pre) "tty." || PyStr.contains "tty." pre)
      in Hpre.
    apply orb_false_iff in Hpre as [Hhere Hlater].
    change (String c pre +:+ "tty." +:+ post)
      with (String c (pre +:+ "tty." +:+ post)).
    cbn [PyStr.replace_scan].
    destruct (PyStr.startswith (String c (pre +:+ "tty." +:+ post)) "tty.")
      eqn:Hstart.
    + apply (tty_no_overlap (String c pre) post) in Hstart; [|done].
      congruence.
    + by rewrite IH.
Qed.

Lemma replace_scan_absent (old new s : string) :
  PyStr.contains old s = false ->
  PyStr.replace_scan old new O s = s.
Proof.
  induction s as [|c s IH]; intros Hs; [done|].
  change (PyStr.contains old (String c s))
    with (PyStr.startswith (String c s) old || PyStr.contains old s) in Hs.
  apply orb_false_iff in Hs as [Hhere Hlater].
  cbn [PyStr.replace_scan]. rewrite Hhere. by rewrite IH.
Qed.

(** X4: on macOS a hint [dir + "tty." + name], with no other "tty." in it,
    that is not enumerated while [dir + "cu." + name] is, selects
    [dir + "cu." + name] first. *)
Theorem mac_device_name_translated (ports : list string) (dir name : string) :
  PyStr.contains "tty." dir = false ->
  PyStr.contains "tty." name = false ->
  (dir +:+ "tty." +:+ name) ∉ ports ->
  (dir +:+ "cu." +:+ name) ∈ ports ->
  exists rest,
    list_available_ports ports (Some (dir +:+ "tty." +:+ name)) "darwin"
    = Ok ((dir +:+ "cu." +:+ name) :: rest).
Proof.
  intros Hdir Hname Hnot Hin.
  assert (PyStr.replace "tty." "cu." (dir +:+ "tty." +:+ name)
          = dir +:+ "cu." +:+ name) as Halt.
  { unfold PyStr.replace. rewrite replace_scan_tty_step by done.
    by rewrite replace_scan_absent. }
  rewrite select_translated_hint; [|done|by exists dir, name|by rewrite Halt].
  rewrite Halt.
  destruct (promote_first _ _ Hin) as (before & after & _ & _ & ->). eauto.
Qed.

Lemma mac_device_name_translated_witness :
  PyStr.contains "tty." "/dev/" = false /\
  PyStr.contains "tty." "usbserial-1410" = false /\
  (("/dev/" +:+ "tty." +:+ "usbserial-1410")
     ∉ ["/dev/cu.Bluetooth-Incoming-Port"; "/dev/cu.usbserial-1410"]) /\
  (("/dev/" +:+ "cu." +:+ "usbserial-1410")
     ∈ ["/dev/cu.Bluetooth-Incoming-Port"; "/dev/cu.usbserial-1410"]) /\
  exists rest,
    list_available_ports
      ["/dev/cu.Bluetooth-Incoming-Port"; "/dev/cu.usbserial-1410"]
      (Some ("/dev/" +:+ "tty." +:+ "usbserial-1410")) "darwin"
    = Ok (("/dev/" +:+ "cu." +:+ "usbserial-1410") :: rest).
Proof.
  split; [reflexivity|]. split; [reflexivity|].
  split; [compute_done|]. split; [compute_done|].
  apply mac_device_name_translated;
    [reflexivity | reflexivity | compute_done | compute_done].
Defined.

(** ** The tool methods *)

Section MethodExtras.

Variable py : python.
Variable run_process : list (list pyval) -> list pyval -> result string.
Variable tmp_name : nat -> string.
Variable os_path_isabs : string -> bool.
Variable os_path_relpath : string -> string -> result string.
Variable self : idfdut.

Local Abbreviation flash_args := (IDFDUT.flash_args self).
Local Abbreviation retry_loop := (IDFDUT.retry_loop py run_process self).
Local Abbreviation start_app_config := (IDFDUT.start_app_config py tmp_name self).
Local Abbreviation start_app := (IDFDUT.start_app py run_process tmp_name self).
Local Abbreviation reset := (IDFDUT.reset run_process self).
Local Abbreviation erase_partition := (IDFDUT.erase_partition py self).
Local Abbreviation dump_flush :=
  (IDFDUT.dump_flush run_process os_path_isabs os_path_relpath self).
Local Abbreviation attempts := (attempts self).
Local Abbreviation flash_config := (flash_config tmp_name self).
Local Abbreviation loop_start := (loop_start tmp_name self).
Local Abbreviation image_granted := (image_granted self).
Local Abbreviation resolves_to :=
  (resolves_to os_path_isabs os_path_relpath self).

(** *** [erase_partition] *)

(** Steps that add nothing to the trace. *)
Lemma quiet_bind {A B} (m : M A) (k : A -> M B) :
  (forall w, trace (snd (m w)) = trace w) ->
  (forall a w, trace (snd (k a w)) = trace w) ->
  forall w, trace (snd (bind m k w)) = trace w.
Proof.
  intros Hm Hk w. unfold bind. specialize (Hm w).
  destruct (m w) as [[a|e] w1]; simpl in *; [|done].
  by rewrite Hk.
Qed.

Lemma quiet_ask (r : request) w : trace (snd (ask r w)) = trace w.
Proof. unfold ask. by destruct (refuses w r). Qed.

Lemma quiet_getitem {V} (d : gmap string V) (k : string) w :
  trace (snd (getitem d k w)) = trace w.
Proof. unfold getitem. by destruct (d !! k). Qed.

Lemma quiet_chr_times (c : pychr) (n : Z) w :
  trace (snd (chr_times py c n w)) = trace w.
Proof.
  revert w. apply quiet_bind; [|done].
  intros w. unfold repeat_check. destruct (index_sized w n); [|done].
  apply quiet_ask.
Qed.

Lemma quiet_open_wb (path : string) w :
  trace (snd (open_wb path w)) = trace w.
Proof. revert w. apply quiet_bind; [apply quiet_ask | done]. Qed.

Lemma quiet_file_write (path : string) (s : pystring) w :
  trace (snd (file_write path s w)) = trace w.
Proof.
  destruct s; simpl; [|done].
  revert w. apply quiet_bind; [apply quiet_ask | done].
Qed.

Lemma quiet_erase_partition_body (partition : string) w :
  trace (snd (IDFDUT.erase_partition_body py self partition w)) = trace w.
Proof.
  revert w. unfold IDFDUT.erase_partition_body.
  apply quiet_bind; [apply quiet_getitem|]. intros p.
  apply quiet_bind; [apply quiet_getitem|]. intros p'.
  apply quiet_bind; [apply quiet_open_wb|]. intros f.
  apply quiet_bind; [apply quiet_chr_times|]. intros blank.
  apply quiet_file_write.
Qed.

(** X5: [erase_partition] never runs the external tool, whatever the
    partition and the interpreter. *)
Theorem erase_partition_never_runs_tool (partition : string) (w : world) :
  tool_calls (trace (snd (erase_partition partition w)))
  = tool_calls (trace w).
Proof.
  unfold IDFDUT.erase_partition. rewrite tool_method_runs_body.
  pose proof (quiet_erase_partition_body partition
                (log EvClose (set_port false w))) as Htrace.
  destruct (IDFDUT.erase_partition_body py self partition _) as [[[]|e] w'];
    simpl in *; [destruct (refuses w' ReqOpenPort); simpl|];
    rewrite Htrace, ?tool_calls_app; simpl; by rewrite ?app_nil_r.
Qed.

(** X6: for a partition of the table whose blank copy can be built and
    whose file can be opened and written, [erase_partition] under Python 2
    leaves [.erase_partition.tmp] holding one 0xFF byte per byte of the
    partition and returns what the reopening of the port comes to; under
    Python 3 the write of text to the binary file raises [TypeError], the
    file is left empty and the port closed. *)
Theorem erase_partition_blank_file (name : string) (p : partition)
    (w : world) :
  partition_table self !! name = Some p ->
  index_sized w (size p) = true ->
  refuses w (ReqRepeat (size p)) = None ->
  refuses w (ReqFileOpen ".erase_partition.tmp") = None ->
  refuses w (ReqFileWrite ".erase_partition.tmp" (Z.to_nat (size p))) = None ->
  let r := fst (erase_partition name w) in
  let w' := snd (erase_partition name w) in
  match py with
  | Python2 =>
      r = reopened w /\
      files w' !! ".erase_partition.tmp"
      = Some (replicate (Z.to_nat (size p)) Byte.xff) /\
      port_open w' = granted w ReqOpenPort
  | Python3 =>
      r = Raise (TypeError "a bytes-like object is required, not 'str'") /\
      files w' !! ".erase_partition.tmp" = Some [] /\
      port_open w' = false
  end.
Proof.
  intros Hp Hfit Hrepeat Hopen Hwrite. cbv zeta.
  unfold IDFDUT.erase_partition. rewrite tool_method_runs_body.
  unfold IDFDUT.erase_partition_body.
  rewrite (bind_ok _ _ _ _ p) by by apply getitem_ok.
  rewrite (bind_ok _ _ _ _ p) by by apply getitem_ok.
  erewrite bind_ok
    by (unfold open_wb;
        erewrite bind_ok
          by (apply ask_granted; unfold granted; simpl; by rewrite Hopen);
        reflexivity).
  assert (forall c w1, refuses w1 = refuses w -> maxsize w1 = maxsize w ->
            chr_times py c (size p) w1
            = (Ok (match c with
                   | ChrByte b => PyBytes (replicate (Z.to_nat (size p)) b)
                   | ChrText c => PyText (text_of c (Z.to_nat (size p)))
                   end), w1)) as Htimes.
  { intros c w1 Henv Hmax.
    unfold chr_times, repeat_check, bind, ask, index_sized.
    unfold index_sized in Hfit. by rewrite Hmax, Hfit, Henv, Hrepeat. }
  erewrite bind_ok by by apply Htimes.
  unfold reopened, granted.
  destruct py; simpl.
  - unfold bind, ask. simpl. rewrite length_replicate.
    rewrite Hwrite. simpl.
    destruct (refuses w ReqOpenPort); simpl;
      by rewrite lookup_insert_eq, lookup_insert_eq.
  - by rewrite lookup_insert_eq.
Qed.

(** X7: for a name that is not in the partition table, [erase_partition]
    raises [KeyError] for that name, writes no file, runs no tool and leaves
    the port closed. *)
Theorem erase_partition_missing (partition : string) (w : world) :
  partition_table self !! partition = None ->
  fst (erase_partition partition w) = Raise (KeyError (PStr partition)) /\
  files (snd (erase_partition partition w)) = files w /\
  port_open (snd (erase_partition partition w)) = false.
Proof.
  intros Hp.
  unfold IDFDUT.erase_partition. rewrite tool_method_runs_body.
  unfold IDFDUT.erase_partition_body, bind, getitem.
  rewrite Hp. done.
Qed.

(** *** [dump_flush] *)

(** X8: once the output path is resolved, a partition name that is not in
    the table makes [dump_flush] raise [KeyError] with nothing invoked, even
    when an address and a size are given as well. *)
Theorem dump_flush_unknown_partition (output_file out name : string)
    (kwargs : gmap string pyval) (w : world) :
  resolves_to output_file out ->
  kwargs !! "partition" = Some (PStr name) ->
  partition_table self !! name = None ->
  fst (dump_flush output_file kwargs w) = Raise (KeyError (PStr name)) /\
  tool_calls (trace (snd (dump_flush output_file kwargs w)))
  = tool_calls (trace w).
Proof.
  intros Hout Hk Hp.
  unfold IDFDUT.dump_flush. rewrite tool_method_runs_body.
  unfold IDFDUT.dump_flush_body.
  rewrite (bind_ok _ _ _ _ out)
    by by apply (resolve_output_run os_path_isabs os_path_relpath self).
  rewrite Hk.
  unfold bind, IDFDUT.partition_getitem, getitem. rewrite Hp. simpl.
  by rewrite tool_calls_app, app_nil_r.
Qed.

(** A path that cannot be made relative stops [dump_flush] before it looks
    at its keyword arguments. *)
Lemma dump_flush_unresolved (output_file : string) (e : exn)
    (kwargs : gmap string pyval) (w : world) :
  os_path_isabs output_file = false ->
  os_path_relpath output_file (log_folder self) = Raise e ->
  fst (dump_flush output_file kwargs w) = Raise e.
Proof.
  intros Hrel Hfail.
  unfold IDFDUT.dump_flush. rewrite tool_method_runs_body.
  unfold IDFDUT.dump_flush_body, IDFDUT.resolve_output, bind, lift.
  by rewrite Hrel, Hfail.
Qed.

(** *** [reset] *)

(** X9: what [reset] does, event by event: it closes the port, hands one
    command line to [subprocess], the [run] command on the session's port,
    and retries nothing. An error of that run reaches the caller as it is
    with the port left closed; after a run that succeeded the port is
    reopened and [reset] returns, unless the port fails to reopen: that
    failure is raised in turn and the port stays closed. *)
Theorem reset_single_invocation (w : world) :
  let args :=
    [PStr "python"; PStr (esptool self); PStr "--port"; PStr (port self);
     PStr "run"] in
  let run := run_process (tool_calls (trace w)) args in
  fst (reset w)
  = match run with
    | Ok _ => reopened w
    | Raise e => Raise e
    end /\
  trace (snd (reset w))
  = trace w ++ EvClose :: EvTool args
      :: match run with
         | Ok _ => if granted w ReqOpenPort then [EvOpen] else []
         | Raise _ => []
         end /\
  port_open (snd (reset w))
  = match run with
    | Ok _ => granted w ReqOpenPort
    | Raise _ => false
    end.
Proof.
  cbv zeta.
  unfold IDFDUT.reset, IDFDUT.reset_body. rewrite tool_method_runs_body.
  unfold bind, IDFDUT.check_output, ret, granted, reopened. simpl.
  rewrite tool_calls_app, app_nil_r.
  destruct (run_process (tool_calls (trace w)) _) as [out|e]; simpl.
  - destruct (refuses w ReqOpenPort); simpl;
      split_and!; try done; by rewrite <- !app_assoc.
  - split_and!; try done. by rewrite <- !app_assoc.
Qed.

(** *** [start_app] *)

Lemma retry_loop_files cfg error rates w :
  files (snd (retry_loop cfg error rates w)) = files w.
Proof.
  revert error w. induction rates as [|r rates IH]; intros error w.
  - simpl. by destruct error.
  - simpl. unfold IDFDUT.check_output.
    destruct (run_process (tool_calls (trace w)) (flash_args r cfg))
      as [out|e]; [done|].
    destruct e; try done. by rewrite IH.
Qed.

Lemma retry_loop_other_error cfg error rate rates e w :
  run_process (tool_calls (trace w)) (flash_args rate cfg) = Raise e ->
  not_process_error e ->
  retry_loop cfg error (rate :: rates) w
  = (Raise e, log (EvTool (flash_args rate cfg)) w).
Proof.
  intros Hrun Hother. simpl. unfold IDFDUT.check_output. rewrite Hrun.
  destruct e; try reflexivity. by destruct (Hother returncode output).
Qed.

(** X10: with [erase_nvs] and no "nvs" line in the partition table,
    [start_app] raises [KeyError] before anything is flashed: no temporary
    file is created, the tool is not run, and the port is left closed. *)
Theorem start_app_missing_nvs (w : world) :
  partition_table self !! "nvs" = None ->
  fst (start_app true w) = Raise (KeyError (PStr "nvs")) /\
  tmpfiles (snd (start_app true w)) = tmpfiles w /\
  tool_calls (trace (snd (start_app true w))) = tool_calls (trace w) /\
  port_open (snd (start_app true w)) = false.
Proof.
  intros Hnvs.
  unfold IDFDUT.start_app. rewrite tool_method_runs_body.
  unfold IDFDUT.start_app_body, IDFDUT.start_app_config, bind, getitem.
  rewrite Hnvs. simpl. by rewrite tool_calls_app, app_nil_r.
Qed.

(** X11: an error of the first attempt that is not a non-zero exit of the
    tool is not retried: [start_app] raises it after that one invocation. *)
Theorem start_app_other_error_propagates erase_nvs w cfg e :
  flash_config erase_nvs w = Some cfg ->
  run_process (tool_calls (trace w)) (flash_args "921600" cfg) = Raise e ->
  not_process_error e ->
  fst (start_app erase_nvs w) = Raise e /\
  tool_calls (trace (snd (start_app erase_nvs w)))
  = tool_calls (trace w) ++ [flash_args "921600" cfg].
Proof.
  intros Hcfg Hrun Hother.
  pose proof (retry_loop_other_error cfg (Some (IDFToolError EmptyString))
                "921600" ["115200"] e (loop_start erase_nvs w)) as Hloop.
  rewrite loop_start_calls in Hloop. specialize (Hloop Hrun Hother).
  destruct (start_app_outcome py run_process tmp_name self _ _ _ _ _ Hcfg Hloop)
    as [-> ->].
  split; [done|]. by rewrite tool_calls_log_tool, loop_start_calls.
Qed.

(** X12: [start_app] runs the tool once or twice: its invocations are the
    attempt at 921600 baud, followed or not by the attempt at 115200 baud,
    each the tool's command line with the port, its rate after "--baud" and
    then the flash arguments. *)
Theorem start_app_invocation_bounds erase_nvs w cfg :
  flash_config erase_nvs w = Some cfg ->
  let attempt rate :=
    [PStr "python"; PStr (esptool self); PStr "--port"; PStr (port self);
     PStr "--baud"; PStr rate] ++ cfg in
  tool_calls (trace (snd (start_app erase_nvs w)))
  = tool_calls (trace w) ++ [attempt "921600"] \/
  tool_calls (trace (snd (start_app erase_nvs w)))
  = tool_calls (trace w) ++ [attempt "921600"; attempt "115200"].
Proof.
  intros Hcfg attempt.
  exact (start_app_calls py run_process tmp_name self erase_nvs w cfg Hcfg).
Qed.

(** X13: once the flash arguments are built (with [erase_nvs], the image
    created, written and flushed), when [start_app] hands control back the
    temporary files are those there were before, untouched, followed with
    [erase_nvs] by the one of the NVS image, closed and deleted; the files
    written by path are untouched. *)
Theorem start_app_temp_files erase_nvs w cfg :
  flash_config erase_nvs w = Some cfg ->
  tmpfiles (snd (start_app erase_nvs w))
  = tmpfiles w
    ++ (if erase_nvs
        then [TmpFile (tmp_name (length (tmpfiles w))) [] [] true]
        else []) /\
  files (snd (start_app erase_nvs w)) = files w.
Proof.
  intros Hcfg.
  rewrite (start_app_run py run_process tmp_name self _ _ _ Hcfg).
  pose proof (retry_loop_tmpfiles py run_process self cfg
                (Some (IDFToolError EmptyString)) retry_baud_rates
                (loop_start erase_nvs w)) as Htmp.
  pose proof (retry_loop_files cfg (Some (IDFToolError EmptyString))
                retry_baud_rates (loop_start erase_nvs w)) as Hfiles.
  destruct (retry_loop _ _ _ _) as [r w2]. simpl in Htmp, Hfiles.
  unfold loop_start, flash_config in *.
  destruct erase_nvs.
  - destruct (partition_table self !! "nvs") as [nvs|]; [|done].
    simpl in Htmp, Hfiles. unfold tmp_close.
    rewrite Htmp, lookup_fresh_handle.
    destruct r as [[]|err]; [destruct (refuses w ReqOpenPort)|]; simpl;
      by rewrite insert_fresh_handle.
  - simpl in Htmp, Hfiles. rewrite app_nil_r.
    by destruct r as [[]|err]; [destruct (refuses w ReqOpenPort)|].
Qed.

(** X14: when the environment lets the image be produced, the head of
    [start_app] with [erase_nvs] leaves, for the flasher to read, a fresh
    open temporary file whose bytes on disk are one 0xFF per byte of the NVS
    partition, nothing waiting to be flushed, and ends the flash arguments
    with the partition's offset and the file's name. *)
Theorem start_app_config_image (nvs : partition) (w : world) :
  partition_table self !! "nvs" = Some nvs ->
  image_granted nvs w = true ->
  exists tf,
    fst (start_app_config true w)
    = Ok (download_config self ++ [offset nvs; PStr (tf_name tf)],
          Some (length (tmpfiles w))) /\
    tmpfiles (snd (start_app_config true w)) = tmpfiles w ++ [tf] /\
    length (tf_disk tf) = Z.to_nat (size nvs) /\
    Forall (fun b => b = Byte.xff) (tf_disk tf) /\
    tf_pending tf = [] /\
    tf_closed tf = false.
Proof.
  intros Hnvs Hgranted.
  rewrite (start_app_config_nvs py tmp_name self nvs w Hnvs Hgranted).
  exists (nvs_image tmp_name nvs w).
  split_and!; [done | done | apply length_replicate | | done | done].
  by apply Forall_replicate.
Qed.

End MethodExtras.

(** ** Probing a port: [get_chip] and [confirm_dut] *)

(** The banner has no proper overlap with itself: an occurrence that starts
    before one lies before it altogether. *)
Lemma banner_no_overlap (p rest : string) :
  p <> EmptyString ->
  PyStr.startswith (p +:+ chip_banner +:+ rest) chip_banner = true ->
  PyStr.startswith p chip_banner = true.
Proof.
  intros Hp. unfold chip_banner.
  do 19 (destruct p as [|? p];
         [first [done | simpl; rewrite ?andb_false_r; done]|]).
  simpl. done.
Qed.

Section ChipExtras.

Variable is_space : ascii -> bool.
Variable run_process : list (list pyval) -> list pyval -> result string.
Variable decode : string -> result string.

Local Abbreviation search := (CHIP_TYPE_PATTERN_search is_space).
Local Abbreviation get_chip := (IDFDUT.get_chip is_space run_process decode).
Local Abbreviation confirm_dut :=
  (IDFDUT.confirm_dut is_space run_process decode).

Lemma search_no_banner (text : string) :
  PyStr.contains chip_banner text = false -> search text = None.
Proof.
  induction text as [|c text IH]; intros Hno.
  - reflexivity.
  - change (PyStr.contains chip_banner (String c text))
      with (PyStr.startswith (String c text) chip_banner
            || PyStr.contains chip_banner text) in Hno.
    apply orb_false_iff in Hno as [Hhere Hlater].
    cbn [CHIP_TYPE_PATTERN_search]. unfold match_here at 1.
    rewrite Hhere. by apply IH.
Qed.

Lemma search_skips (pre tail : string) :
  PyStr.contains chip_banner pre = false ->
  search (pre +:+ chip_banner +:+ tail) = search (chip_banner +:+ tail).
Proof.
  induction pre as [|c pre IH]; intros Hno; [done|].
  change (PyStr.contains chip_banner (String c pre))
    with (PyStr.startswith (String c pre) chip_banner
          || PyStr.contains chip_banner pre) in Hno.
  apply orb_false_iff in Hno as [Hhere Hlater].
  change (String c pre +:+ chip_banner +:+ tail)
    with (String c (pre +:+ chip_banner +:+ tail)).
  cbn [CHIP_TYPE_PATTERN_search]. unfold match_here at 1.
  destruct (PyStr.startswith (String c (pre +:+ chip_banner +:+ tail))
              chip_banner) eqn:Hstart.
  - apply (banner_no_overlap (String c pre) tail) in Hstart; [|done].
    congruence.
  - by apply IH.
Qed.

Lemma class_run_separator (sep tail : string) :
  string_forall (chip_class is_space) sep = true ->
  class_run is_space tail = O ->
  class_run is_space (sep +:+ tail) = String.length sep.
Proof.
  intros Hsep Htail. induction sep as [|c sep IH]; simpl in *; [done|].
  apply andb_true_iff in Hsep as [-> Hsep]. by rewrite IH.
Qed.

Lemma class_run_app_name (name rest : string) :
  name <> EmptyString ->
  class_run is_space name = O -> class_run is_space (name +:+ rest) = O.
Proof.
  destruct name as [|c name]; [done|]. simpl.
  by destruct (chip_class is_space c).
Qed.

Lemma drop_chars_app (a b : string) :
  drop_chars (String.length a) (a +:+ b) = b.
Proof. induction a as [|c a IH]; simpl; [by destruct b | done]. Qed.

Lemma line_app (name rest : string) :
  string_forall (fun c => negb (Ascii.eqb c newline)) name = true ->
  line (name +:+ rest) = name +:+ line rest.
Proof.
  intros Hname. induction name as [|c name IH]; simpl in *; [done|].
  apply andb_true_iff in Hname as [Hc Hname].
  apply negb_true_iff in Hc. rewrite Hc. by rewrite IH.
Qed.

Lemma append_empty_r (s : string) : s +:+ EmptyString = s.
Proof.
  induction s as [|c s IH]; [done|].
  change (String c (s +:+ EmptyString) = String c s). by rewrite IH.
Qed.

(** The search on a text with a well-formed banner line. *)
Lemma search_banner_line (pre sep name rest : string) :
  PyStr.contains chip_banner pre = false ->
  sep <> EmptyString ->
  string_forall (chip_class is_space) sep = true ->
  name <> EmptyString ->
  class_run is_space name = O ->
  string_forall (fun c => negb (Ascii.eqb c newline)) name = true ->
  line rest = EmptyString ->
  search (pre +:+ chip_banner +:+ sep +:+ name +:+ rest) = Some name.
Proof.
  intros Hpre Hsep Hclass Hname Hfirst Hline Hrest.
  rewrite search_skips by done.
  assert (match_here is_space (chip_banner +:+ sep +:+ name +:+ rest)
          = Some name) as Hhere.
  { unfold match_here. rewrite startswith_app_self.
    rewrite drop_chars_app.
    rewrite class_run_separator by (done || by apply class_run_app_name).
    destruct sep as [|c sep]; [done|].
    change (String.length (String c sep)) with (S (String.length sep)).
    cbn [back_off].
    change (S (String.length sep)) with (String.length (String c sep)).
    rewrite drop_chars_app. unfold group_dot_plus.
    rewrite line_app by done. rewrite Hrest, append_empty_r.
    by destruct name. }
  unfold chip_banner in *.
  change (CHIP_TYPE_PATTERN_search is_space
            ("Detecting chip type" +:+ sep +:+ name +:+ rest))
    with (match match_here is_space
                  ("Detecting chip type" +:+ sep +:+ name +:+ rest) with
          | Some g => Some g
          | None =>
              CHIP_TYPE_PATTERN_search is_space
                ("etecting chip type" +:+ sep +:+ name +:+ rest)
          end).
  by rewrite Hhere.
Qed.

(** X15: a probe whose tool run exits with an error finds no chip:
    [get_chip] returns [None] and [confirm_dut] returns [False], neither
    raises. *)
Theorem get_chip_tool_failure (app_esptool port : string) (w : world)
    (rc : Z) (out : string) :
  run_process (tool_calls (trace w)) (chip_id_args app_esptool port)
  = Raise (CalledProcessError rc out) ->
  decode EmptyString = Ok EmptyString ->
  fst (get_chip app_esptool port w) = Ok None /\
  fst (confirm_dut port app_esptool w) = Ok false.
Proof.
  intros Hrun Hdecode.
  unfold IDFDUT.confirm_dut, IDFDUT.get_chip, bind, IDFDUT.check_output.
  unfold chip_id_args in Hrun. rewrite Hrun. simpl. by rewrite Hdecode.
Qed.

(** X16: output that never says "Detecting chip type" names no chip. *)
Theorem get_chip_no_banner (app_esptool port : string) (w : world)
    (output text : string) :
  run_process (tool_calls (trace w)) (chip_id_args app_esptool port)
  = Ok output ->
  decode output = Ok text ->
  PyStr.contains chip_banner text = false ->
  fst (get_chip app_esptool port w) = Ok None /\
  fst (confirm_dut port app_esptool w) = Ok false.
Proof.
  intros Hrun Hdecode Hno.
  unfold IDFDUT.confirm_dut, IDFDUT.get_chip, bind, IDFDUT.check_output.
  unfold chip_id_args in Hrun. rewrite Hrun. simpl. rewrite Hdecode. simpl.
  unfold ret. by rewrite (search_no_banner text Hno).
Qed.

(** X17: when the first "Detecting chip type" of the output is followed by
    dots, colons or blanks and then by a name that runs to the end of its
    line, [get_chip] returns that name and [confirm_dut] returns [True]. *)
Theorem get_chip_reads_banner (app_esptool port : string) (w : world)
    (output pre sep name rest : string) :
  run_process (tool_calls (trace w)) (chip_id_args app_esptool port)
  = Ok output ->
  decode output = Ok (pre +:+ chip_banner +:+ sep +:+ name +:+ rest) ->
  PyStr.contains chip_banner pre = false ->
  sep <> EmptyString ->
  string_forall (chip_class is_space) sep = true ->
  name <> EmptyString ->
  class_run is_space name = O ->
  string_forall (fun c => negb (Ascii.eqb c newline)) name = true ->
  line rest = EmptyString ->
  fst (get_chip app_esptool port w) = Ok (Some name) /\
  fst (confirm_dut port app_esptool w) = Ok true.
Proof.
  intros Hrun Hdecode Hpre Hsep Hclass Hname Hfirst Hline Hrest.
  unfold IDFDUT.confirm_dut, IDFDUT.get_chip, bind, IDFDUT.check_output.
  unfold chip_id_args in Hrun. rewrite Hrun. simpl. rewrite Hdecode. simpl.
  unfold ret. by rewrite search_banner_line.
Qed.

(** X18: any other error of the probe's tool run reaches the caller of
    [get_chip] and of [confirm_dut]. *)
Theorem get_chip_other_error_propagates (app_esptool port : string)
    (w : world) (e : exn) :
  run_process (tool_calls (trace w)) (chip_id_args app_esptool port)
  = Raise e ->
  not_process_error e ->
  fst (get_chip app_esptool port w) = Raise e /\
  fst (confirm_dut port app_esptool w) = Raise e.
Proof.
  intros Hrun Hother.
  unfold IDFDUT.confirm_dut, IDFDUT.get_chip, bind, IDFDUT.check_output.
  unfold chip_id_args in Hrun. rewrite Hrun.
  destruct e; try done. by destruct (Hother returncode output).
Qed.

End ChipExtras.

(** ** Concrete runs of the further properties *)

Lemma erase_partition_blank_file_witness :
  partition_table Bench.dut !! "nvs" = Some (Partition (PStr "0x9000") 4) /\
  index_sized Bench.idle 4 = true /\
  refuses Bench.idle (ReqRepeat 4) = None /\
  refuses Bench.idle (ReqFileOpen ".erase_partition.tmp") = None /\
  refuses Bench.idle (ReqFileWrite ".erase_partition.tmp" (Z.to_nat 4)) = None /\
  fst (erase_partition Python2 Bench.dut "nvs" Bench.idle) = Ok tt /\
  files (snd (erase_partition Python2 Bench.dut "nvs" Bench.idle))
    !! ".erase_partition.tmp"
  = Some [Byte.xff; Byte.xff; Byte.xff; Byte.xff] /\
  port_open (snd (erase_partition Python2 Bench.dut "nvs" Bench.idle)) = true.
Proof.
  assert (partition_table Bench.dut !! "nvs"
          = Some (Partition (PStr "0x9000") 4)) as Hnvs by (by vm_compute).
  split; [exact Hnvs|]. split; [reflexivity|].
  split; [reflexivity|]. split; [reflexivity|]. split; [reflexivity|].
  exact (erase_partition_blank_file Python2 Bench.dut "nvs"
           (Partition (PStr "0x9000") 4) Bench.idle Hnvs
           eq_refl eq_refl eq_refl eq_refl).
Defined.

Lemma erase_partition_missing_witness :
  partition_table Bench.dut !! "phy_init" = None /\
  fst (erase_partition Python2 Bench.dut "phy_init" Bench.idle)
  = Raise (KeyError (PStr "phy_init")) /\
  files (snd (erase_partition Python2 Bench.dut "phy_init" Bench.idle))
  = files Bench.idle /\
  port_open (snd (erase_partition Python2 Bench.dut "phy_init" Bench.idle))
  = false.
Proof.
  assert (partition_table Bench.dut !! "phy_init" = None) as Hno
    by (by vm_compute).
  split; [exact Hno|].
  exact (erase_partition_missing Python2 Bench.dut "phy_init" Bench.idle Hno).
Defined.

Lemma dump_flush_unknown_partition_witness :
  resolves_to Bench.isabs Bench.relpath Bench.dut "/tmp/dump.bin"
    "/tmp/dump.bin" /\
  ({[ "partition" := PStr "phy_init"; "address" := PStr "0x1000";
      "size" := PStr "16" ]} : gmap string pyval) !! "partition"
  = Some (PStr "phy_init") /\
  partition_table Bench.dut !! "phy_init" = None /\
  fst (dump_flush Bench.tool_ok Bench.isabs Bench.relpath Bench.dut
         "/tmp/dump.bin"
         {[ "partition" := PStr "phy_init"; "address" := PStr "0x1000";
            "size" := PStr "16" ]} Bench.idle)
  = Raise (KeyError (PStr "phy_init")) /\
  tool_calls
    (trace (snd (dump_flush Bench.tool_ok Bench.isabs Bench.relpath Bench.dut
                   "/tmp/dump.bin"
                   {[ "partition" := PStr "phy_init"; "address" := PStr "0x1000";
                      "size" := PStr "16" ]} Bench.idle)))
  = tool_calls (trace Bench.idle).
Proof.
  assert (({[ "partition" := PStr "phy_init"; "address" := PStr "0x1000";
              "size" := PStr "16" ]} : gmap string pyval) !! "partition"
          = Some (PStr "phy_init")) as Hk by (by vm_compute).
  assert (partition_table Bench.dut !! "phy_init" = None) as Hno
    by (by vm_compute).
  split; [exact bench_absolute_path|]. split; [exact Hk|]. split; [exact Hno|].
  exact (dump_flush_unknown_partition Bench.tool_ok Bench.isabs Bench.relpath
           Bench.dut "/tmp/dump.bin" "/tmp/dump.bin" "phy_init" _ Bench.idle
           bench_absolute_path Hk Hno).
Defined.

Lemma start_app_missing_nvs_witness :
  partition_table Bench.dut_no_nvs !! "nvs" = None /\
  fst (start_app Python2 Bench.tool_ok Bench.tmp_name Bench.dut_no_nvs true
         Bench.idle) = Raise (KeyError (PStr "nvs")) /\
  tmpfiles (snd (start_app Python2 Bench.tool_ok Bench.tmp_name
                   Bench.dut_no_nvs true Bench.idle)) = tmpfiles Bench.idle /\
  tool_calls (trace (snd (start_app Python2 Bench.tool_ok Bench.tmp_name
                            Bench.dut_no_nvs true Bench.idle)))
  = tool_calls (trace Bench.idle) /\
  port_open (snd (start_app Python2 Bench.tool_ok Bench.tmp_name
                    Bench.dut_no_nvs true Bench.idle)) = false.
Proof.
  assert (partition_table Bench.dut_no_nvs !! "nvs" = None) as Hno
    by (by vm_compute).
  split; [exact Hno|].
  exact (start_app_missing_nvs Python2 Bench.tool_ok Bench.tmp_name
           Bench.dut_no_nvs Bench.idle Hno).
Defined.

Lemma bench_plain_config :
  flash_config Bench.tmp_name Bench.dut false Bench.idle
  = Some (download_config Bench.dut).
Proof. reflexivity. Qed.

Lemma os_error_not_process_error (msg : string) :
  not_process_error (OSError msg).
Proof. intros rc out. discriminate. Qed.

Lemma start_app_other_error_propagates_witness :
  flash_config Bench.tmp_name Bench.dut false Bench.idle
  = Some (download_config Bench.dut) /\
  Bench.tool_missing (tool_calls (trace Bench.idle))
    (IDFDUT.flash_args Bench.dut "921600" (download_config Bench.dut))
  = Raise (OSError "No such file or directory") /\
  not_process_error (OSError "No such file or directory") /\
  fst (start_app Python3 Bench.tool_missing Bench.tmp_name Bench.dut false
         Bench.idle) = Raise (OSError "No such file or directory") /\
  tool_calls (trace (snd (start_app Python3 Bench.tool_missing Bench.tmp_name
                            Bench.dut false Bench.idle)))
  = tool_calls (trace Bench.idle)
    ++ [IDFDUT.flash_args Bench.dut "921600" (download_config Bench.dut)].
Proof.
  split; [exact bench_plain_config|]. split; [reflexivity|].
  split; [apply os_error_not_process_error|].
  exact (start_app_other_error_propagates Python3 Bench.tool_missing
           Bench.tmp_name Bench.dut false Bench.idle _ _
           bench_plain_config eq_refl
           (os_error_not_process_error "No such file or directory")).
Defined.

Lemma start_app_invocation_bounds_witness :
  flash_config Bench.tmp_name Bench.dut true Bench.idle = Some bench_nvs_config /\
  (tool_calls (trace (snd (start_app Python3 Bench.tool_fails_once
                             Bench.tmp_name Bench.dut true Bench.idle)))
   = [[PStr "python"; PStr "esptool.py"; PStr "--port"; PStr "/dev/ttyUSB0";
       PStr "--baud"; PStr "921600";
       PStr "0x1000"; PStr "bootloader.bin"; PStr "0x10000"; PStr "app.bin";
       PStr "0x9000"; PStr "/tmp/tmpnvs"]] \/
   tool_calls (trace (snd (start_app Python3 Bench.tool_fails_once
                             Bench.tmp_name Bench.dut true Bench.idle)))
   = [[PStr "python"; PStr "esptool.py"; PStr "--port"; PStr "/dev/ttyUSB0";
       PStr "--baud"; PStr "921600";
       PStr "0x1000"; PStr "bootloader.bin"; PStr "0x10000"; PStr "app.bin";
       PStr "0x9000"; PStr "/tmp/tmpnvs"];
      [PStr "python"; PStr "esptool.py"; PStr "--port"; PStr "/dev/ttyUSB0";
       PStr "--baud"; PStr "115200";
       PStr "0x1000"; PStr "bootloader.bin"; PStr "0x10000"; PStr "app.bin";
       PStr "0x9000"; PStr "/tmp/tmpnvs"]]).
Proof.
  split; [exact bench_flash_config|].
  exact (start_app_invocation_bounds Python3 Bench.tool_fails_once
           Bench.tmp_name Bench.dut true Bench.idle bench_nvs_config
           bench_flash_config).
Defined.

Lemma start_app_temp_files_witness :
  flash_config Bench.tmp_name Bench.dut true Bench.idle = Some bench_nvs_config /\
  tmpfiles (snd (start_app Python3 Bench.tool_fails Bench.tmp_name Bench.dut
                   true Bench.idle))
  = tmpfiles Bench.idle
    ++ [TmpFile (Bench.tmp_name (length (tmpfiles Bench.idle))) [] [] true] /\
  files (snd (start_app Python3 Bench.tool_fails Bench.tmp_name Bench.dut
                true Bench.idle)) = files Bench.idle.
Proof.
  split; [exact bench_flash_config|].
  exact (start_app_temp_files Python3 Bench.tool_fails Bench.tmp_name
           Bench.dut true Bench.idle bench_nvs_config bench_flash_config).
Defined.

Lemma start_app_config_image_witness :
  partition_table Bench.dut !! "nvs" = Some (Partition (PStr "0x9000") 4) /\
  image_granted Bench.dut (Partition (PStr "0x9000") 4) Bench.idle = true /\
  exists tf,
    fst (IDFDUT.start_app_config Python3 Bench.tmp_name Bench.dut true Bench.idle)
    = Ok (download_config Bench.dut ++ [PStr "0x9000"; PStr (tf_name tf)],
          Some (length (tmpfiles Bench.idle))) /\
    tmpfiles (snd (IDFDUT.start_app_config Python3 Bench.tmp_name Bench.dut true
                     Bench.idle)) = tmpfiles Bench.idle ++ [tf] /\
    length (tf_disk tf) = Z.to_nat 4 /\
    Forall (fun b => b = Byte.xff) (tf_disk tf) /\
    tf_pending tf = [] /\
    tf_closed tf = false.
Proof.
  assert (partition_table Bench.dut !! "nvs"
          = Some (Partition (PStr "0x9000") 4)) as Hnvs by (by vm_compute).
  split; [exact Hnvs|]. split; [reflexivity|].
  exact (start_app_config_image Python3 Bench.tmp_name Bench.dut
           (Partition (PStr "0x9000") 4) Bench.idle Hnvs eq_refl).
Defined.

Lemma get_chip_tool_failure_witness :
  Bench.tool_fails (tool_calls (trace Bench.idle))
    (chip_id_args "esptool.py" "/dev/ttyUSB0")
  = Raise (CalledProcessError 2 "failed") /\
  Bench.decode EmptyString = Ok EmptyString /\
  fst (get_chip Bench.ascii_space Bench.tool_fails Bench.decode
         "esptool.py" "/dev/ttyUSB0" Bench.idle) = Ok None /\
  fst (confirm_dut Bench.ascii_space Bench.tool_fails Bench.decode
         "/dev/ttyUSB0" "esptool.py" Bench.idle) = Ok false.
Proof.
  split; [reflexivity|]. split; [reflexivity|].
  exact (get_chip_tool_failure Bench.ascii_space Bench.tool_fails Bench.decode
           "esptool.py" "/dev/ttyUSB0" Bench.idle 2 "failed"
           eq_refl eq_refl).
Defined.

Lemma get_chip_no_banner_witness :
  Bench.tool_ok (tool_calls (trace Bench.idle))
    (chip_id_args "esptool.py" "/dev/ttyUSB0") = Ok "Hard resetting..." /\
  Bench.decode "Hard resetting..." = Ok "Hard resetting..." /\
  PyStr.contains chip_banner "Hard resetting..." = false /\
  fst (get_chip Bench.ascii_space Bench.tool_ok Bench.decode
         "esptool.py" "/dev/ttyUSB0" Bench.idle) = Ok None /\
  fst (confirm_dut Bench.ascii_space Bench.tool_ok Bench.decode
         "/dev/ttyUSB0" "esptool.py" Bench.idle) = Ok false.
Proof.
  split; [reflexivity|]. split; [reflexivity|]. split; [reflexivity|].
  exact (get_chip_no_banner Bench.ascii_space Bench.tool_ok Bench.decode
           "esptool.py" "/dev/ttyUSB0" Bench.idle
           "Hard resetting..." "Hard resetting..." eq_refl eq_refl eq_refl).
Defined.

Lemma get_chip_reads_banner_witness :
  Bench.tool_chip_id (tool_calls (trace Bench.idle))
    (chip_id_args "esptool.py" "/dev/ttyUSB0") = Ok Bench.chip_id_output /\
  Bench.decode Bench.chip_id_output
  = Ok (bench_before_banner +:+ chip_banner +:+ "... " +:+ "ESP32"
        +:+ bench_after_name) /\
  PyStr.contains chip_banner bench_before_banner = false /\
  "... " <> EmptyString /\
  string_forall (chip_class Bench.ascii_space) "... " = true /\
  "ESP32" <> EmptyString /\
  class_run Bench.ascii_space "ESP32" = O /\
  string_forall (fun c => negb (Ascii.eqb c newline)) "ESP32" = true /\
  line bench_after_name = EmptyString /\
  fst (get_chip Bench.ascii_space Bench.tool_chip_id Bench.decode
         "esptool.py" "/dev/ttyUSB0" Bench.idle) = Ok (Some "ESP32") /\
  fst (confirm_dut Bench.ascii_space Bench.tool_chip_id Bench.decode
         "/dev/ttyUSB0" "esptool.py" Bench.idle) = Ok true.
Proof.
  split; [reflexivity|]. split; [reflexivity|]. split; [reflexivity|].
  split; [discriminate|]. split; [reflexivity|]. split; [discriminate|].
  split; [reflexivity|]. split; [reflexivity|]. split; [reflexivity|].
  refine (get_chip_reads_banner Bench.ascii_space Bench.tool_chip_id
            Bench.decode "esptool.py" "/dev/ttyUSB0" Bench.idle
            Bench.chip_id_output bench_before_banner "... " "ESP32"
            bench_after_name eq_refl eq_refl eq_refl _ eq_refl _ eq_refl
            eq_refl eq_refl); discriminate.
Defined.

Lemma get_chip_other_error_propagates_witness :
  Bench.tool_missing (tool_calls (trace Bench.idle))
    (chip_id_args "esptool.py" "/dev/ttyUSB0")
  = Raise (OSError "No such file or directory") /\
  not_process_error (OSError "No such file or directory") /\
  fst (get_chip Bench.ascii_space Bench.tool_missing Bench.decode
         "esptool.py" "/dev/ttyUSB0" Bench.idle)
  = Raise (OSError "No such file or directory") /\
  fst (confirm_dut Bench.ascii_space Bench.tool_missing Bench.decode
         "/dev/ttyUSB0" "esptool.py" Bench.idle)
  = Raise (OSError "No such file or directory").
Proof.
  split; [reflexivity|]. split; [apply os_error_not_process_error|].
  exact (get_chip_other_error_propagates Bench.ascii_space Bench.tool_missing
           Bench.decode "esptool.py" "/dev/ttyUSB0" Bench.idle _ eq_refl
           (os_error_not_process_error "No such file or directory")).
Defined.
